(** * Raspberry Pi 7-inch touchscreen panel driver

    A shallow embedding of
    [drivers/gpu/drm/panel/panel-raspberrypi-touchscreen.c]: the panel
    lifecycle callbacks, the mode enumeration, the backlight status
    callback and the DSI probe, with the properties the driver's
    specification states about them.

    C [int] and [unsigned int] values are carried as [Z]; where the code
    does arithmetic on them the 32-bit wrap-around is written out.
    Kernel state that the callbacks mutate through pointers is threaded
    explicitly through a small state monad. *)

From Stdlib Require Import ZArith List Bool String Ascii Lia DecimalString.
Import ListNotations.
Local Open Scope string_scope.
Local Open Scope list_scope.
Local Open Scope Z_scope.

(** ** Kernel constants and types used by the driver *)

Module Linux.

(** [include/uapi/linux/fb.h]: [enum { FB_BLANK_UNBLANK = VESA_NO_BLANKING,
    ..., FB_BLANK_POWERDOWN = VESA_POWERDOWN + 1 }]. *)
Definition FB_BLANK_UNBLANK : Z := 0.
Definition FB_BLANK_POWERDOWN : Z := 4.

(** [include/linux/backlight.h]: [BL_CORE_SUSPENDED = (1 << 0)],
    [BL_CORE_FBBLANK = (1 << 1)]. *)
Definition BL_CORE_SUSPENDED : Z := Z.shiftl 1 0.
Definition BL_CORE_FBBLANK : Z := Z.shiftl 1 1.

(** [include/uapi/drm/drm_mode.h] and [include/drm/drm_modes.h]. *)
Definition DRM_MODE_TYPE_PREFERRED : Z := Z.shiftl 1 3.
Definition DRM_MODE_TYPE_DRIVER : Z := Z.shiftl 1 6.
Definition DRM_MODE_FLAG_INTERLACE : Z := Z.shiftl 1 4.

(** [include/drm/drm_mipi_dsi.h]. *)
Definition MIPI_DSI_MODE_VIDEO : Z := Z.shiftl 1 0.
Definition MIPI_DSI_MODE_VIDEO_SYNC_PULSE : Z := Z.shiftl 1 2.
Definition MIPI_DSI_FMT_RGB888 : Z := 0.

(** [errno] values. *)
Definition ENOMEM : Z := 12.
Definition ENODEV : Z := 19.
Definition EPROBE_DEFER : Z := 517.

(** Width of [int] and [unsigned int]. *)
Definition UINT_MODULUS : Z := 2 ^ 32.
Definition INT_MAX : Z := 2 ^ 31 - 1.

(** Value of an [unsigned int] expression. *)
Definition to_uint (v : Z) : Z := v mod UINT_MODULUS.

(** Conversion of an [unsigned int] to [int], as gcc does it. *)
Definition uint_to_int (v : Z) : Z :=
  if to_uint v <=? INT_MAX then to_uint v else to_uint v - UINT_MODULUS.

(** [struct backlight_properties], the fields the driver reads or
    writes. *)
Record backlight_properties : Type := mk_backlight_properties {
  brightness : Z;
  max_brightness : Z;
  power : Z;
  state : Z
}.

(** [struct backlight_device]. *)
Record backlight_device : Type := mk_backlight_device {
  props : backlight_properties
}.

(** [struct drm_display_mode]. *)
Record drm_display_mode : Type := mk_drm_display_mode {
  name : string;
  type : Z;
  clock : Z;
  hdisplay : Z;
  hsync_start : Z;
  hsync_end : Z;
  htotal : Z;
  vdisplay : Z;
  vsync_start : Z;
  vsync_end : Z;
  vtotal : Z;
  vrefresh : Z;
  flags : Z
}.

(** [struct drm_display_info], the fields the driver writes. *)
Record drm_display_info : Type := mk_drm_display_info {
  width_mm : Z;
  height_mm : Z;
  bpc : Z
}.

(** [struct drm_connector]: the list headed by [probed_modes] and the
    display info. *)
Record drm_connector : Type := mk_drm_connector {
  probed_modes : list drm_display_mode;
  display_info : drm_display_info
}.

(** A [struct i2c_client *]: null, an [ERR_PTR] carrying a negative
    errno, or a pointer to a live client. *)
Inductive i2c_client_ptr : Type :=
| I2C_NULL
| I2C_ERR_PTR (err : Z)
| I2C_CLIENT (id : nat).

(** The C test [!ptr]. *)
Definition is_null (p : i2c_client_ptr) : bool :=
  match p with
  | I2C_NULL => true
  | _ => false
  end.

Definition newline : string := String (ascii_of_nat 10) EmptyString.

(** printf's [%d] and [%u]. *)
Definition fmt_d (v : Z) : string := NilZero.string_of_int (Z.to_int v).
Definition fmt_u (v : Z) : string := fmt_d (to_uint v).

End Linux.
Import Linux.

(** ** A state monad for code that mutates kernel objects *)

Definition State (S A : Type) : Type := S -> A * S.

Definition ret {S A : Type} (a : A) : State S A := fun s => (a, s).

Definition bind {S A B : Type} (c : State S A) (f : A -> State S B)
  : State S B :=
  fun s => let (a, s') := c s in f a s'.

Definition get {S : Type} : State S S := fun s => (s, s).

Definition modify {S : Type} (f : S -> S) : State S unit :=
  fun s => (tt, f s).

Declare Scope state_scope.
Delimit Scope state_scope with state.
Notation "x <- c ;; k" := (bind c (fun x => k))
  (at level 61, c at next level, right associativity) : state_scope.
Notation "c ;;; k" := (bind c (fun _ => k))
  (at level 61, right associativity) : state_scope.
Local Open Scope state_scope.

(** ** The panel *)

(** [struct rpi_touchscreen].  [backlight] is [None] for a null pointer
    and otherwise holds the device the pointer refers to. *)
Record rpi_touchscreen : Type := mk_rpi_touchscreen {
  bridge_i2c : i2c_client_ptr;
  backlight : option backlight_device;
  prepared : bool;
  enabled : bool;
  atmel_ver : Z
}.

(** What the lifecycle callbacks can touch: the panel, the kernel log,
    and the status refreshes requested from the backlight core, each
    recorded with the device as it was handed over. *)
Record kernel : Type := mk_kernel {
  panel : rpi_touchscreen;
  dmesg : list string;
  bl_requests : list backlight_device
}.

Definition set_power (v : Z) (bl : backlight_device) : backlight_device :=
  let p := props bl in
  mk_backlight_device
    (mk_backlight_properties (brightness p) (max_brightness p) v (state p)).

Definition set_backlight (b : option backlight_device) (ts : rpi_touchscreen)
  : rpi_touchscreen :=
  mk_rpi_touchscreen (bridge_i2c ts) b (prepared ts) (enabled ts) (atmel_ver ts).

Definition set_prepared (v : bool) (ts : rpi_touchscreen) : rpi_touchscreen :=
  mk_rpi_touchscreen (bridge_i2c ts) (backlight ts) v (enabled ts) (atmel_ver ts).

Definition set_enabled (v : bool) (ts : rpi_touchscreen) : rpi_touchscreen :=
  mk_rpi_touchscreen (bridge_i2c ts) (backlight ts) (prepared ts) v (atmel_ver ts).

Definition with_panel (f : rpi_touchscreen -> rpi_touchscreen) (k : kernel)
  : kernel :=
  mk_kernel (f (panel k)) (dmesg k) (bl_requests k).

(** [pr_err(msg)]. *)
Definition pr_err (msg : string) : State kernel unit :=
  modify (fun k => mk_kernel (panel k) (dmesg k ++ [msg]) (bl_requests k)).

(** ** rpi_touchscreen_backlight_update *)

(** The callback's stack frame when it returns: the device behind [bl]
    and the local [brightness]. *)
Record backlight_update_frame : Type := mk_backlight_update_frame {
  frame_bl : backlight_device;
  frame_brightness : Z
}.

(** The body of [rpi_touchscreen_backlight_update], down to its [return]:
    the frame at that point and the returned value. *)
Definition rpi_touchscreen_backlight_update_body (bl : backlight_device)
  : backlight_update_frame * Z :=
  let brightness0 := brightness (props bl) in
  let brightness1 :=
    if negb (power (props bl) =? FB_BLANK_UNBLANK)
       || negb (Z.land (state (props bl))
                       (Z.lor BL_CORE_SUSPENDED BL_CORE_FBBLANK) =? 0)
    then 0
    else brightness0 in
  (mk_backlight_update_frame bl brightness1, 0).

(** The callback as its caller sees it: the device afterwards and the
    return value.  The locals die with the frame. *)
Definition rpi_touchscreen_backlight_update (bl : backlight_device)
  : backlight_device * Z :=
  let (frame, r) := rpi_touchscreen_backlight_update_body bl in
  (frame_bl frame, r).

(** Modelled from the spec: [backlight_update_status] of
    [include/linux/backlight.h] is not part of this file.  The spec
    describes it as the collaborator's status-refresh request, which
    recomputes the output through the driver's status callback; the model
    records the request and runs [rpi_touchscreen_backlight_update], the
    [update_status] member of [rpi_touchscreen_backlight_ops]. *)
Definition backlight_update_status (bd : backlight_device)
  : State kernel (backlight_device * Z) :=
  modify (fun k => mk_kernel (panel k) (dmesg k) (bl_requests k ++ [bd])) ;;;
  ret (rpi_touchscreen_backlight_update bd).

(** ** The lifecycle callbacks *)

Definition rpi_touchscreen_disable : State kernel Z :=
  pr_err (String.append "disable" newline) ;;;
  k <- get ;;
  let ts := panel k in
  if negb (enabled ts) then ret 0
  else
    match backlight ts with
    | Some bl =>
        r <- backlight_update_status (set_power FB_BLANK_POWERDOWN bl) ;;
        modify (with_panel (set_backlight (Some (fst r))))
    | None => ret tt
    end ;;;
    modify (with_panel (set_enabled false)) ;;;
    ret 0.

Definition rpi_touchscreen_unprepare : State kernel Z :=
  k <- get ;;
  let ts := panel k in
  if negb (prepared ts) then ret 0
  else
    modify (with_panel (set_prepared false)) ;;;
    ret 0.

Definition rpi_touchscreen_prepare : State kernel Z :=
  k <- get ;;
  let ts := panel k in
  if prepared ts then ret 0
  else
    modify (with_panel (set_prepared true)) ;;;
    ret 0.

Definition rpi_touchscreen_enable : State kernel Z :=
  k <- get ;;
  let ts := panel k in
  if enabled ts then ret 0
  else
    match backlight ts with
    | Some bl =>
        r <- backlight_update_status (set_power FB_BLANK_UNBLANK bl) ;;
        modify (with_panel (set_backlight (Some (fst r))))
    | None => ret tt
    end ;;;
    modify (with_panel (set_enabled true)) ;;;
    ret 0.

(** The callbacks as the panel core reaches them through
    [rpi_touchscreen_funcs]. *)
Inductive lifecycle_op : Type := Prepare | Enable | Disable | Unprepare.

Definition rpi_touchscreen_funcs (o : lifecycle_op) : State kernel Z :=
  match o with
  | Disable => rpi_touchscreen_disable
  | Unprepare => rpi_touchscreen_unprepare
  | Prepare => rpi_touchscreen_prepare
  | Enable => rpi_touchscreen_enable
  end.

(** The kernel after each call of a sequence of lifecycle calls, in call
    order. *)
Fixpoint trace (ops : list lifecycle_op) (k : kernel) : list kernel :=
  match ops with
  | [] => []
  | o :: rest =>
      let k' := snd (rpi_touchscreen_funcs o k) in
      k' :: trace rest k'
  end.

(** The kernel after the whole sequence. *)
Definition run (ops : list lifecycle_op) (k : kernel) : kernel :=
  fold_left (fun k o => snd (rpi_touchscreen_funcs o k)) ops k.

(** The panel as [devm_kzalloc] leaves it in the probe: every field
    zero. *)
Definition zeroed_panel : rpi_touchscreen :=
  mk_rpi_touchscreen I2C_NULL None false false 0.

(** The state an operation drives the panel to: a call made in that state
    has nothing to do. *)
Definition in_target_state (o : lifecycle_op) (ts : rpi_touchscreen) : bool :=
  match o with
  | Prepare => prepared ts
  | Enable => enabled ts
  | Disable => negb (enabled ts)
  | Unprepare => negb (prepared ts)
  end.

(** [enabled] implies [prepared]. *)
Definition enabled_implies_prepared (ts : rpi_touchscreen) : bool :=
  implb (enabled ts) (prepared ts).

(** The call order the panel core's users keep: enable only a prepared
    panel, unprepare only a disabled one. *)
Definition call_in_order (o : lifecycle_op) (ts : rpi_touchscreen) : bool :=
  match o with
  | Enable => prepared ts
  | Unprepare => negb (enabled ts)
  | Prepare | Disable => true
  end.

Fixpoint calls_in_order (ops : list lifecycle_op) (k : kernel) : bool :=
  match ops with
  | [] => true
  | o :: rest =>
      call_in_order o (panel k)
      && calls_in_order rest (snd (rpi_touchscreen_funcs o k))
  end.

(** What a switch of the backlight to power value [v] does to the kernel:
    nothing without a backlight, otherwise the write and the refresh
    request. *)
Definition switch_backlight (v : Z) (k : kernel) : kernel :=
  match backlight (panel k) with
  | Some bl =>
      mk_kernel (set_backlight (Some (set_power v bl)) (panel k))
        (dmesg k) (bl_requests k ++ [set_power v bl])
  | None => k
  end.

(** The kernel with one more line in its log. *)
Definition logged (msg : string) (k : kernel) : kernel :=
  mk_kernel (panel k) (dmesg k ++ [msg]) (bl_requests k).

(** ** Mode enumeration *)

(** The static table [rpi_touchscreen_modes]; members without an
    initializer are zero. *)
Definition rpi_touchscreen_modes : list drm_display_mode :=
  [ {| name := "";
       type := 0;
       clock := 83333;
       hdisplay := 800;
       hsync_start := 800 + 61;
       hsync_end := 800 + 61 + 2;
       htotal := 800 + 61 + 2 + 44;
       vdisplay := 480;
       vsync_start := 480 + 7;
       vsync_end := 480 + 7 + 2;
       vtotal := 480 + 7 + 2 + 21;
       vrefresh := 60;
       flags := 0 |} ].

(** What [rpi_touchscreen_get_modes] can touch: the connector behind
    [panel->connector], the DRM device's mode allocator (which requests
    succeed, and how many were made so far) and the kernel log. *)
Record drm_state : Type := mk_drm_state {
  connector : drm_connector;
  mode_alloc_ok : nat -> bool;
  mode_allocs : nat;
  drm_log : list string
}.

Definition with_connector (f : drm_connector -> drm_connector) (s : drm_state)
  : drm_state :=
  mk_drm_state (f (connector s)) (mode_alloc_ok s) (mode_allocs s) (drm_log s).

Definition or_type (bits : Z) (m : drm_display_mode) : drm_display_mode :=
  {| name := name m; type := Z.lor (type m) bits; clock := clock m;
     hdisplay := hdisplay m; hsync_start := hsync_start m;
     hsync_end := hsync_end m; htotal := htotal m;
     vdisplay := vdisplay m; vsync_start := vsync_start m;
     vsync_end := vsync_end m; vtotal := vtotal m;
     vrefresh := vrefresh m; flags := flags m |}.

(** Modelled from the spec: [drm_mode_duplicate] of [drm_modes.c] is not
    part of this file.  The spec calls it the duplication step, which
    materializes a copy of a table entry or fails on allocation; the model
    counts the request, asks the allocator whether it succeeds, and on
    success hands back the entry copied verbatim. *)
Definition drm_mode_duplicate (m : drm_display_mode)
  : State drm_state (option drm_display_mode) :=
  fun s =>
    let n := mode_allocs s in
    (if mode_alloc_ok s n then Some m else None,
     mk_drm_state (connector s) (mode_alloc_ok s) (S n) (drm_log s)).

(** [drm_mode_set_name] of [drm_modes.c]: the name becomes
    ["%dx%d%s"] of the active size, with an ["i"] for interlaced modes. *)
Definition drm_mode_set_name (m : drm_display_mode) : drm_display_mode :=
  let interlaced := negb (Z.land (flags m) DRM_MODE_FLAG_INTERLACE =? 0) in
  {| name := String.append (fmt_d (hdisplay m))
               (String.append "x"
                  (String.append (fmt_d (vdisplay m))
                     (if interlaced then "i" else "")));
     type := type m; clock := clock m;
     hdisplay := hdisplay m; hsync_start := hsync_start m;
     hsync_end := hsync_end m; htotal := htotal m;
     vdisplay := vdisplay m; vsync_start := vsync_start m;
     vsync_end := vsync_end m; vtotal := vtotal m;
     vrefresh := vrefresh m; flags := flags m |}.

(** [drm_mode_probed_add]: [list_add_tail] onto the connector's
    [probed_modes]. *)
Definition drm_mode_probed_add (m : drm_display_mode) : State drm_state unit :=
  modify (with_connector (fun c =>
    mk_drm_connector (probed_modes c ++ [m]) (display_info c))).

(** [dev_err(drm->dev, msg)]. *)
Definition dev_err (msg : string) : State drm_state unit :=
  modify (fun s =>
    mk_drm_state (connector s) (mode_alloc_ok s) (mode_allocs s)
      (drm_log s ++ [msg])).

Definition failed_to_add_mode (m : drm_display_mode) : string :=
  String.append "failed to add mode "
    (String.append (fmt_u (hdisplay m))
       (String.append "x"
          (String.append (fmt_u (vdisplay m))
             (String.append "@"
                (String.append (fmt_u (vrefresh m)) newline))))).

(** One pass of the loop body for the entry [m] at index [i]; the result
    is [num] after the pass. *)
Definition get_modes_iteration (m : drm_display_mode) (i num : Z)
  : State drm_state Z :=
  mode <- drm_mode_duplicate m ;;
  match mode with
  | None =>
      dev_err (failed_to_add_mode m) ;;;
      ret num
  | Some mode =>
      let mode := or_type DRM_MODE_TYPE_DRIVER mode in
      let mode := if i =? 0 then or_type DRM_MODE_TYPE_PREFERRED mode
                  else mode in
      let mode := drm_mode_set_name mode in
      drm_mode_probed_add mode ;;;
      ret (to_uint (num + 1))
  end.

(** The [for] loop over the entries from index [i] on.  [i] and [num] are
    [unsigned int]; the recursion follows the table, which agrees with the
    test [i < ARRAY_SIZE(table)] as long as the table has fewer than 2^32
    entries. *)
Fixpoint get_modes_loop (rest : list drm_display_mode) (i num : Z)
  : State drm_state Z :=
  match rest with
  | [] => ret num
  | m :: rest' =>
      num' <- get_modes_iteration m i num ;;
      get_modes_loop rest' (to_uint (i + 1)) num'
  end.

Definition set_bpc (v : Z) (c : drm_connector) : drm_connector :=
  let d := display_info c in
  mk_drm_connector (probed_modes c)
    (mk_drm_display_info (width_mm d) (height_mm d) v).

Definition set_width_mm (v : Z) (c : drm_connector) : drm_connector :=
  let d := display_info c in
  mk_drm_connector (probed_modes c)
    (mk_drm_display_info v (height_mm d) (bpc d)).

Definition set_height_mm (v : Z) (c : drm_connector) : drm_connector :=
  let d := display_info c in
  mk_drm_connector (probed_modes c)
    (mk_drm_display_info (width_mm d) v (bpc d)).

(** [rpi_touchscreen_get_modes] over a mode table. *)
Definition rpi_touchscreen_get_modes_over (table : list drm_display_mode)
  : State drm_state Z :=
  num <- get_modes_loop table 0 0 ;;
  modify (with_connector (set_bpc 8)) ;;;
  modify (with_connector (set_width_mm 217)) ;;;
  modify (with_connector (set_height_mm 136)) ;;;
  ret (uint_to_int num).

(** [rpi_touchscreen_get_modes]: the enumeration of the driver's own
    table. *)
Definition rpi_touchscreen_get_modes : State drm_state Z :=
  rpi_touchscreen_get_modes_over rpi_touchscreen_modes.

(** What the driver makes of a table entry it managed to duplicate. *)
Definition produced_mode (i : Z) (m : drm_display_mode) : drm_display_mode :=
  drm_mode_set_name
    (if i =? 0
     then or_type DRM_MODE_TYPE_PREFERRED (or_type DRM_MODE_TYPE_DRIVER m)
     else or_type DRM_MODE_TYPE_DRIVER m).

(** The entries of a table whose duplication succeeds, as produced, when
    the first entry has index [i] and asks for allocation number [n]. *)
Fixpoint materialized (ok : nat -> bool) (n : nat) (i : Z)
    (table : list drm_display_mode) : list drm_display_mode :=
  match table with
  | [] => []
  | m :: rest =>
      if ok n then produced_mode i m :: materialized ok (S n) (i + 1) rest
      else materialized ok (S n) (i + 1) rest
  end.

(** The messages logged for the entries whose duplication fails. *)
Fixpoint skipped_messages (ok : nat -> bool) (n : nat)
    (table : list drm_display_mode) : list string :=
  match table with
  | [] => []
  | m :: rest =>
      if ok n then skipped_messages ok (S n) rest
      else failed_to_add_mode m :: skipped_messages ok (S n) rest
  end.

Definition has_type (bits : Z) (m : drm_display_mode) : bool :=
  negb (Z.land (type m) bits =? 0).

(** ** Probe *)

(** [struct mipi_dsi_device], the fields the probe writes. *)
Record mipi_dsi_device : Type := mk_mipi_dsi_device {
  mode_flags : Z;
  format : Z;
  lanes : Z
}.

(** What the probe meets outside the driver: whether [devm_kzalloc] can
    allocate, the device tree behind [of_parse_phandle] (the node a
    property of [dev->of_node] refers to, if the property is there), the
    I2C core behind [of_find_i2c_device_by_node] (the client registered
    for a node, if any), and the values [drm_panel_add] and
    [mipi_dsi_attach] return. *)
Record probe_env : Type := mk_probe_env {
  kzalloc_ok : bool;
  of_parse_phandle : string -> option nat;
  of_find_i2c_device_by_node : nat -> option nat;
  drm_panel_add : Z;
  mipi_dsi_attach : Z
}.

(** Calls on the reference counts and the panel list that the probe
    makes. *)
Inductive probe_event : Type :=
| Of_node_put (node : nat)
| Put_device (client : i2c_client_ptr)
| Drm_panel_added.

(** What the probe can touch: the driver data of the device, the DSI
    device and the calls made so far. *)
Record probe_state : Type := mk_probe_state {
  drvdata : option rpi_touchscreen;
  dsi : mipi_dsi_device;
  events : list probe_event
}.

Definition emit (e : probe_event) : State probe_state unit :=
  modify (fun s => mk_probe_state (drvdata s) (dsi s) (events s ++ [e])).

(** A write through [ts], the pointer stored as driver data. *)
Definition store_ts (ts : rpi_touchscreen) : State probe_state unit :=
  modify (fun s => mk_probe_state (Some ts) (dsi s) (events s)).

Definition store_dsi (d : mipi_dsi_device) : State probe_state unit :=
  modify (fun s => mk_probe_state (drvdata s) d (events s)).

Definition set_bridge_i2c (p : i2c_client_ptr) (ts : rpi_touchscreen)
  : rpi_touchscreen :=
  mk_rpi_touchscreen p (backlight ts) (prepared ts) (enabled ts) (atmel_ver ts).

Definition rpi_touchscreen_get_i2c (env : probe_env) (name : string)
  : State probe_state i2c_client_ptr :=
  match of_parse_phandle env name with
  | None => ret (I2C_ERR_PTR (- ENODEV))
  | Some node =>
      let client :=
        match of_find_i2c_device_by_node env node with
        | Some c => I2C_CLIENT c
        | None => I2C_NULL
        end in
      emit (Of_node_put node) ;;;
      ret client
  end.

Definition rpi_touchscreen_dsi_probe (env : probe_env) : State probe_state Z :=
  if negb (kzalloc_ok env) then ret (- ENOMEM)
  else
    let ts := zeroed_panel in
    store_ts ts ;;;
    store_dsi (mk_mipi_dsi_device
                 (Z.lor MIPI_DSI_MODE_VIDEO MIPI_DSI_MODE_VIDEO_SYNC_PULSE)
                 MIPI_DSI_FMT_RGB888
                 1) ;;;
    client <- rpi_touchscreen_get_i2c env "raspberrypi,touchscreen-bridge" ;;
    let ts := set_bridge_i2c client ts in
    store_ts ts ;;;
    if is_null (bridge_i2c ts) then ret (- EPROBE_DEFER)
    else
      let r := drm_panel_add env in
      if r <? 0 then
        emit (Put_device (bridge_i2c ts)) ;;;
        ret r
      else
        emit Drm_panel_added ;;;
        ret (mipi_dsi_attach env).

(** A DSI device not probed yet. *)
Definition unbound : probe_state :=
  mk_probe_state None (mk_mipi_dsi_device 0 0 0) [].

(** The lookup resolved to a device handle: a pointer to a client, neither
    null nor an error pointer. *)
Definition resolves_to_device (p : i2c_client_ptr) : bool :=
  match p with
  | I2C_CLIENT _ => true
  | _ => false
  end.

(** ** Sequences of lifecycle calls *)

(** The flag [prepared] as a sequence of calls leaves it, from the calls
    alone: Prepare sets it, Unprepare clears it, the others keep it. *)
Definition prepared_after (ops : list lifecycle_op) (p : bool) : bool :=
  fold_left
    (fun p o =>
       match o with
       | Prepare => true
       | Unprepare => false
       | Enable | Disable => p
       end) ops p.

(** The same for [enabled]. *)
Definition enabled_after (ops : list lifecycle_op) (e : bool) : bool :=
  fold_left
    (fun e o =>
       match o with
       | Enable => true
       | Disable => false
       | Prepare | Unprepare => e
       end) ops e.

(** How many calls of a sequence change [enabled], when it starts out as
    [e]. *)
Fixpoint enable_transitions (ops : list lifecycle_op) (e : bool) : nat :=
  match ops with
  | [] => 0
  | Enable :: rest =>
      if e then enable_transitions rest e
      else S (enable_transitions rest true)
  | Disable :: rest =>
      if e then S (enable_transitions rest false)
      else enable_transitions rest e
  | (Prepare | Unprepare) :: rest => enable_transitions rest e
  end.

(** The power value the driver writes for a panel that is enabled, or
    not. *)
Definition power_for (on : bool) : Z :=
  if on then FB_BLANK_UNBLANK else FB_BLANK_POWERDOWN.

(** Refresh requests that switch on and off in turn, the first one to
    [on]. *)
Fixpoint alternates (on : bool) (reqs : list backlight_device) : bool :=
  match reqs with
  | [] => true
  | bl :: rest =>
      (power (props bl) =? power_for on) && alternates (negb on) rest
  end.

(** The attached backlight, if there is one, has the power value of the
    panel's [enabled] flag. *)
Definition power_follows_enabled (ts : rpi_touchscreen) : bool :=
  match backlight ts with
  | Some bl => power (props bl) =? power_for (enabled ts)
  | None => true
  end.

(** The properties of a backlight device the driver has no business
    with. *)
Definition untouched_props (bl : backlight_device) : Z * Z * Z :=
  (brightness (props bl), max_brightness (props bl), state (props bl)).

Definition is_disable (o : lifecycle_op) : bool :=
  match o with
  | Disable => true
  | _ => false
  end.

Definition on_prepared (o : lifecycle_op) : bool :=
  match o with
  | Prepare | Unprepare => true
  | Enable | Disable => false
  end.

(** ** Mode tables and allocation outcomes *)

(** The timing a mode describes: everything but its name and type. *)
Definition timings (m : drm_display_mode) : list Z :=
  [clock m; hdisplay m; hsync_start m; hsync_end m; htotal m;
   vdisplay m; vsync_start m; vsync_end m; vtotal m; vrefresh m; flags m].

(** The table entries whose duplication succeeds, as they stand in the
    table, when the first entry asks for allocation number [n]. *)
Fixpoint duplicated (ok : nat -> bool) (n : nat)
    (table : list drm_display_mode) : list drm_display_mode :=
  match table with
  | [] => []
  | m :: rest =>
      if ok n then m :: duplicated ok (S n) rest
      else duplicated ok (S n) rest
  end.

(** ** Remove and shutdown *)

(** What the remove callback meets outside the driver: the value
    [mipi_dsi_detach] returns. *)
Record remove_env : Type := mk_remove_env {
  mipi_dsi_detach : Z
}.

(** Calls the remove callback makes on the panel core and the log. *)
Inductive teardown_event : Type :=
| Dev_err (msg : string)
| Drm_panel_detach
| Drm_panel_remove.

(** What the remove callback can touch: the device as the probe left it
    and the calls made while tearing down. *)
Record bound_state : Type := mk_bound_state {
  device : probe_state;
  teardown : list teardown_event
}.

(** How the callback ends: it returns, or it goes through the null driver
    data pointer. *)
Inductive remove_result : Type :=
| Returned (r : Z)
| Null_dereference.

Definition log_teardown (e : teardown_event) : State bound_state unit :=
  modify (fun s => mk_bound_state (device s) (teardown s ++ [e])).

(** A computation on the device, run inside the bound state. *)
Definition on_device {A : Type} (c : State probe_state A)
  : State bound_state A :=
  fun s => let (a, d) := c (device s) in (a, mk_bound_state d (teardown s)).

Definition failed_to_detach (r : Z) : string :=
  String.append "failed to detach from DSI host: "
    (String.append (fmt_d r) newline).

Definition rpi_touchscreen_dsi_remove (env : remove_env)
  : State bound_state remove_result :=
  s <- get ;;
  let ts := drvdata (device s) in
  let r := mipi_dsi_detach env in
  if r <? 0 then
    log_teardown (Dev_err (failed_to_detach r)) ;;;
    ret (Returned r)
  else
    match ts with
    | None => ret Null_dereference
    | Some ts =>
        log_teardown Drm_panel_detach ;;;
        log_teardown Drm_panel_remove ;;;
        on_device (emit (Put_device (bridge_i2c ts))) ;;;
        ret (Returned 0)
    end.

(** [rpi_touchscreen_dsi_shutdown]: an empty body. *)
Definition rpi_touchscreen_dsi_shutdown : State bound_state unit := ret tt.

(** The bridge lookup of the probe, by its result alone. *)
Definition bridge_lookup (env : probe_env) : i2c_client_ptr :=
  match of_parse_phandle env "raspberrypi,touchscreen-bridge" with
  | None => I2C_ERR_PTR (- ENODEV)
  | Some node =>
      match of_find_i2c_device_by_node env node with
      | Some c => I2C_CLIENT c
      | None => I2C_NULL
      end
  end.

Definition is_of_node_put (e : probe_event) : bool :=
  match e with
  | Of_node_put _ => true
  | _ => false
  end.

Definition is_put_device (e : probe_event) : bool :=
  match e with
  | Put_device _ => true
  | _ => false
  end.

Definition is_panel_added (e : probe_event) : bool :=
  match e with
  | Drm_panel_added => true
  | _ => false
  end.

(** The [of_node_put] calls a probe owes: one for the node the bridge
    property refers to, if the probe got as far as finding one. *)
Definition node_puts_owed (env : probe_env) : list probe_event :=
  if kzalloc_ok env then
    match of_parse_phandle env "raspberrypi,touchscreen-bridge" with
    | Some node => [Of_node_put node]
    | None => []
    end
  else [].

(** * Properties *)

(** ** Lifecycle callbacks *)

Ltac unfold_callbacks :=
  unfold rpi_touchscreen_funcs, rpi_touchscreen_prepare,
    rpi_touchscreen_unprepare, rpi_touchscreen_enable,
    rpi_touchscreen_disable, backlight_update_status,
    rpi_touchscreen_backlight_update, rpi_touchscreen_backlight_update_body,
    pr_err, bind, ret, get, modify, with_panel.

Ltac destruct_kernel k :=
  let ts := fresh "ts" in
  let log := fresh "log" in
  let reqs := fresh "reqs" in
  let i2c := fresh "i2c" in
  let bl := fresh "bl" in
  let p := fresh "p" in
  let e := fresh "e" in
  let ver := fresh "ver" in
  destruct k as [ts log reqs]; destruct ts as [i2c bl p e ver].

(** Each callback by cases on the flag it tests. *)
Lemma prepare_eq (k : kernel) :
  rpi_touchscreen_prepare k =
  (0, if prepared (panel k) then k else with_panel (set_prepared true) k).
Proof. unfold_callbacks. destruct (prepared (panel k)); reflexivity. Qed.

Lemma unprepare_eq (k : kernel) :
  rpi_touchscreen_unprepare k =
  (0, if prepared (panel k) then with_panel (set_prepared false) k else k).
Proof. unfold_callbacks. destruct (prepared (panel k)); reflexivity. Qed.

Lemma enable_eq (k : kernel) :
  rpi_touchscreen_enable k =
  (0, if enabled (panel k) then k
      else with_panel (set_enabled true)
             (switch_backlight FB_BLANK_UNBLANK k)).
Proof.
  unfold_callbacks. unfold switch_backlight.
  destruct (enabled (panel k)); [reflexivity|].
  destruct (backlight (panel k)); reflexivity.
Qed.

Lemma disable_eq (k : kernel) :
  rpi_touchscreen_disable k =
  (0, let k1 := logged (String.append "disable" newline) k in
      if enabled (panel k) then
        with_panel (set_enabled false)
          (switch_backlight FB_BLANK_POWERDOWN k1)
      else k1).
Proof.
  unfold_callbacks. unfold switch_backlight, logged. cbn [panel dmesg bl_requests].
  destruct (enabled (panel k)); [|reflexivity].
  cbn [negb]. destruct (backlight (panel k)); reflexivity.
Qed.

Lemma funcs_returns_zero (o : lifecycle_op) (k : kernel) :
  fst (rpi_touchscreen_funcs o k) = 0.
Proof.
  destruct o; cbn [rpi_touchscreen_funcs];
    [rewrite prepare_eq | rewrite enable_eq | rewrite disable_eq
    | rewrite unprepare_eq]; reflexivity.
Qed.

(** In its target state a callback leaves the panel and the backlight
    requests alone. *)
Lemma funcs_in_target_state (o : lifecycle_op) (k : kernel) :
  in_target_state o (panel k) = true ->
  panel (snd (rpi_touchscreen_funcs o k)) = panel k /\
  bl_requests (snd (rpi_touchscreen_funcs o k)) = bl_requests k.
Proof.
  destruct o; cbn [rpi_touchscreen_funcs in_target_state]; intros H;
    [rewrite prepare_eq | rewrite enable_eq | rewrite disable_eq
    | rewrite unprepare_eq]; cbn [snd].
  - rewrite H. auto.
  - rewrite H. auto.
  - apply negb_true_iff in H. rewrite H. auto.
  - apply negb_true_iff in H. rewrite H. auto.
Qed.

(** A callback leaves the panel in its target state. *)
Lemma funcs_reaches_target_state (o : lifecycle_op) (k : kernel) :
  in_target_state o (panel (snd (rpi_touchscreen_funcs o k))) = true.
Proof.
  destruct o; cbn [rpi_touchscreen_funcs in_target_state];
    [rewrite prepare_eq | rewrite enable_eq | rewrite disable_eq
    | rewrite unprepare_eq]; cbn [snd].
  - destruct (prepared (panel k)) eqn:E; [exact E | reflexivity].
  - destruct (enabled (panel k)) eqn:E; [exact E | reflexivity].
  - destruct (enabled (panel k)) eqn:E; [reflexivity |].
    cbn [logged panel]. rewrite E. reflexivity.
  - destruct (prepared (panel k)) eqn:E; [reflexivity |].
    rewrite E. reflexivity.
Qed.

(** A call made in order keeps [enabled] implying [prepared]. *)
Lemma call_in_order_keeps_invariant (o : lifecycle_op) (k : kernel) :
  enabled_implies_prepared (panel k) = true ->
  call_in_order o (panel k) = true ->
  enabled_implies_prepared (panel (snd (rpi_touchscreen_funcs o k))) = true.
Proof.
  unfold enabled_implies_prepared.
  destruct o; cbn [rpi_touchscreen_funcs call_in_order]; intros Hinv Hord;
    [rewrite prepare_eq | rewrite enable_eq | rewrite disable_eq
    | rewrite unprepare_eq]; cbn [snd]; unfold switch_backlight, logged;
    destruct_kernel k; cbn in Hinv, Hord |- *;
    destruct p, e, bl; cbn in Hinv, Hord |- *; congruence.
Qed.

Lemma ordered_trace_keeps_invariant (ops : list lifecycle_op) :
  forall k,
    enabled_implies_prepared (panel k) = true ->
    calls_in_order ops k = true ->
    Forall (fun k' => enabled_implies_prepared (panel k') = true)
      (trace ops k).
Proof.
  induction ops as [| o rest IH]; intros k Hinv Hord; cbn [trace].
  - constructor.
  - cbn [calls_in_order] in Hord. apply andb_true_iff in Hord.
    destruct Hord as [Ho Hrest].
    pose proof (call_in_order_keeps_invariant o k Hinv Ho) as Hnext.
    constructor; [exact Hnext | apply IH; assumption].
Qed.

(** C1, as the code has it: for every sequence of Prepare / Enable /
    Disable / Unprepare calls that starts from the initial state
    ([prepared = false], [enabled = false]) and keeps the callers' order
    (Enable only on a prepared panel, Unprepare only on a disabled one),
    [enabled] implies [prepared] after every call.  The callbacks
    themselves do not check the order. *)
Theorem invariant_after_every_ordered_call
    (ops : list lifecycle_op) (k : kernel) :
  prepared (panel k) = false ->
  enabled (panel k) = false ->
  calls_in_order ops k = true ->
  Forall (fun k' => enabled_implies_prepared (panel k') = true) (trace ops k).
Proof.
  intros Hp He Hord. apply ordered_trace_keeps_invariant; [| exact Hord].
  unfold enabled_implies_prepared. rewrite He. reflexivity.
Qed.

(** C1 as stated fails: Enable on the freshly allocated panel sets
    [enabled] while [prepared] is still false, and so does Unprepare on an
    enabled panel. *)
Lemma enable_before_prepare_breaks_invariant :
  let k0 := mk_kernel zeroed_panel [] [] in
  prepared (panel k0) = false /\
  enabled (panel k0) = false /\
  ~ Forall (fun k' => enabled_implies_prepared (panel k') = true)
      (trace [Enable] k0) /\
  ~ Forall (fun k' => enabled_implies_prepared (panel k') = true)
      (trace [Prepare; Enable; Unprepare] k0).
Proof.
  cbv zeta. repeat split.
  - intros H. inversion H as [| x l Hx Hl]. vm_compute in Hx. discriminate Hx.
  - intros H. inversion H as [| x1 l1 Hx1 Hl1]; subst.
    inversion Hl1 as [| x2 l2 Hx2 Hl2]; subst.
    inversion Hl2 as [| x3 l3 Hx3 Hl3]; subst.
    vm_compute in Hx3. discriminate Hx3.
Qed.

Lemma invariant_after_every_ordered_call_witness :
  let k0 := mk_kernel zeroed_panel [] [] in
  let ops := [Prepare; Enable; Disable; Unprepare; Prepare; Enable] in
  calls_in_order ops k0 = true /\
  Forall (fun k' => enabled_implies_prepared (panel k') = true) (trace ops k0).
Proof.
  cbv zeta. split; [reflexivity |].
  apply (invariant_after_every_ordered_call
           [Prepare; Enable; Disable; Unprepare; Prepare; Enable]
           (mk_kernel zeroed_panel [] [])); reflexivity.
Defined.

(** Disable writes its line to the kernel log on every call, also when
    the panel is already disabled; the log is no part of the panel or of
    the backlight. *)
Lemma disable_always_logs (k : kernel) :
  dmesg (snd (rpi_touchscreen_disable k)) =
  dmesg k ++ [String.append "disable" newline].
Proof.
  rewrite disable_eq. cbn [snd]. unfold switch_backlight, logged.
  destruct_kernel k. destruct e, bl; reflexivity.
Qed.

(** C2: each lifecycle callback is idempotent.  Called on a panel already
    in its target state it returns 0 and leaves the panel (both flags and
    the attached backlight device) and the backlight refresh requests as
    they were; hence calling any of them twice gives the panel and the
    requests of calling it once, and after Prepare twice [prepared] is
    true. *)
Theorem lifecycle_callbacks_idempotent (o : lifecycle_op) (k : kernel) :
  (in_target_state o (panel k) = true ->
   fst (rpi_touchscreen_funcs o k) = 0 /\
   panel (snd (rpi_touchscreen_funcs o k)) = panel k /\
   bl_requests (snd (rpi_touchscreen_funcs o k)) = bl_requests k) /\
  (panel (run [o; o] k) = panel (run [o] k) /\
   bl_requests (run [o; o] k) = bl_requests (run [o] k)) /\
  (prepared (panel (run [Prepare; Prepare] k)) = true /\
   backlight (panel (run [Prepare; Prepare] k)) = backlight (panel k)).
Proof.
  split; [| split].
  - intros H. split; [apply funcs_returns_zero |].
    apply funcs_in_target_state, H.
  - cbn [run fold_left].
    apply funcs_in_target_state, funcs_reaches_target_state.
  - cbn [run fold_left rpi_touchscreen_funcs].
    rewrite !prepare_eq. cbn [snd].
    destruct (prepared (panel k)) eqn:E; [rewrite E; auto |].
    cbn. auto.
Qed.

Lemma lifecycle_callbacks_idempotent_witness :
  let bl := mk_backlight_device (mk_backlight_properties 200 255 0 0) in
  let k := mk_kernel (mk_rpi_touchscreen (I2C_CLIENT 0) (Some bl) true true 0)
             [] [] in
  in_target_state Enable (panel k) = true /\
  fst (rpi_touchscreen_funcs Enable k) = 0 /\
  panel (snd (rpi_touchscreen_funcs Enable k)) = panel k /\
  bl_requests (snd (rpi_touchscreen_funcs Enable k)) = bl_requests k.
Proof.
  cbv zeta. split; [reflexivity |].
  apply (proj1 (lifecycle_callbacks_idempotent Enable
    (mk_kernel
       (mk_rpi_touchscreen (I2C_CLIENT 0)
          (Some (mk_backlight_device (mk_backlight_properties 200 255 0 0)))
          true true 0) [] []))).
  reflexivity.
Defined.

(** C3: Enable on a panel that is not enabled returns 0 and sets
    [enabled].  With a backlight attached it writes FB_BLANK_UNBLANK to
    the device's [power], leaves its other properties alone and asks for
    one status refresh of the device so written; without a backlight there
    is no device afterwards either and no refresh is asked for. *)
Theorem enable_switches_backlight_on (k : kernel) :
  enabled (panel k) = false ->
  let k' := snd (rpi_touchscreen_enable k) in
  fst (rpi_touchscreen_enable k) = 0 /\
  enabled (panel k') = true /\
  prepared (panel k') = prepared (panel k) /\
  match backlight (panel k) with
  | Some bl =>
      exists bl',
        backlight (panel k') = Some bl' /\
        power (props bl') = FB_BLANK_UNBLANK /\
        brightness (props bl') = brightness (props bl) /\
        max_brightness (props bl') = max_brightness (props bl) /\
        state (props bl') = state (props bl) /\
        bl_requests k' = bl_requests k ++ [bl']
  | None =>
      backlight (panel k') = None /\
      bl_requests k' = bl_requests k
  end.
Proof.
  intros He. cbv zeta. rewrite enable_eq, He. cbn [fst snd].
  unfold switch_backlight. destruct (backlight (panel k)) as [bl |] eqn:Hbl.
  - cbn. repeat split. eexists. repeat split.
  - cbn. rewrite Hbl. auto.
Qed.

Lemma enable_switches_backlight_on_witness :
  let bl := mk_backlight_device (mk_backlight_properties 200 255 4 0) in
  let k := mk_kernel (mk_rpi_touchscreen (I2C_CLIENT 0) (Some bl) true false 0)
             [] [] in
  enabled (panel k) = false /\
  enabled (panel (snd (rpi_touchscreen_enable k))) = true.
Proof.
  cbv zeta. split; [reflexivity |].
  apply (enable_switches_backlight_on
    (mk_kernel
       (mk_rpi_touchscreen (I2C_CLIENT 0)
          (Some (mk_backlight_device (mk_backlight_properties 200 255 4 0)))
          true false 0) [] [])).
  reflexivity.
Defined.

(** C4: with a backlight attached, Enable followed at once by Disable
    leaves [enabled] false and the backlight's [power] at
    FB_BLANK_POWERDOWN, whatever the panel state before. *)
Theorem enable_then_disable_powers_down (k : kernel) (bl : backlight_device) :
  backlight (panel k) = Some bl ->
  let k' := run [Enable; Disable] k in
  enabled (panel k') = false /\
  exists bl',
    backlight (panel k') = Some bl' /\
    power (props bl') = FB_BLANK_POWERDOWN.
Proof.
  intros Hbl. cbv zeta. cbn [run fold_left rpi_touchscreen_funcs].
  rewrite enable_eq. cbn [snd]. rewrite disable_eq. cbn [snd].
  unfold switch_backlight, logged.
  destruct_kernel k. cbn in Hbl. subst.
  destruct e; cbn; split; try reflexivity; eexists; split; reflexivity.
Qed.

Lemma enable_then_disable_powers_down_witness :
  let bl := mk_backlight_device (mk_backlight_properties 200 255 0 0) in
  let k := mk_kernel (mk_rpi_touchscreen (I2C_CLIENT 0) (Some bl) true false 0)
             [] [] in
  backlight (panel k) = Some bl /\
  enabled (panel (run [Enable; Disable] k)) = false.
Proof.
  cbv zeta. split; [reflexivity |].
  apply (enable_then_disable_powers_down
    (mk_kernel
       (mk_rpi_touchscreen (I2C_CLIENT 0)
          (Some (mk_backlight_device (mk_backlight_properties 200 255 0 0)))
          true false 0) [] [])
    (mk_backlight_device (mk_backlight_properties 200 255 0 0))).
  reflexivity.
Defined.

(** C7: every lifecycle callback returns 0, in every state of the
    panel. *)
Theorem lifecycle_callbacks_infallible (o : lifecycle_op) (k : kernel) :
  fst (rpi_touchscreen_funcs o k) = 0.
Proof. apply funcs_returns_zero. Qed.

(** ** Backlight status callback *)

(** The mask test of the callback reads the two flag bits. *)
Lemma suspended_or_fbblank_bits (st : Z) :
  (Z.land st (Z.lor BL_CORE_SUSPENDED BL_CORE_FBBLANK) =? 0) =
  negb (Z.testbit st 0 || Z.testbit st 1).
Proof.
  change (Z.lor BL_CORE_SUSPENDED BL_CORE_FBBLANK) with 3.
  destruct (Z.testbit st 0) eqn:B0; destruct (Z.testbit st 1) eqn:B1; cbn.
  1-3: apply Z.eqb_neq; intros H.
  - apply (f_equal (fun v => Z.testbit v 0)) in H.
    rewrite Z.land_spec, B0 in H. discriminate H.
  - apply (f_equal (fun v => Z.testbit v 0)) in H.
    rewrite Z.land_spec, B0 in H. discriminate H.
  - apply (f_equal (fun v => Z.testbit v 1)) in H.
    rewrite Z.land_spec, B1 in H. discriminate H.
  - apply Z.eqb_eq. apply Z.bits_inj'. intros n Hn.
    rewrite Z.land_spec, Z.bits_0.
    destruct (Z.eq_dec n 0) as [-> | N0]; [rewrite B0; reflexivity |].
    destruct (Z.eq_dec n 1) as [-> | N1]; [rewrite B1; reflexivity |].
    replace (Z.testbit 3 n) with false; [apply andb_false_r |].
    symmetry. change 3 with (Z.ones 2). apply Z.ones_spec_high. lia.
Qed.

(** C9: the brightness the status callback arrives at depends on the
    backlight device alone, and only on its power, state flags and
    requested brightness: it is 0 when [power] is not FB_BLANK_UNBLANK or
    the suspended flag (bit 0 of [state]) or the blanked flag (bit 1) is
    set, and the requested brightness otherwise.  So brightness 200 with
    power on and no flag gives 200; power off, or the suspended flag,
    gives 0. *)
Theorem effective_brightness_of_backlight_state (bl : backlight_device) :
  let effective :=
    frame_brightness (fst (rpi_touchscreen_backlight_update_body bl)) in
  effective =
    (if negb (power (props bl) =? FB_BLANK_UNBLANK)
        || Z.testbit (state (props bl)) 0
        || Z.testbit (state (props bl)) 1
     then 0
     else brightness (props bl)) /\
  (forall mx mx',
     frame_brightness
       (fst (rpi_touchscreen_backlight_update_body
               (mk_backlight_device
                  (mk_backlight_properties (brightness (props bl)) mx
                     (power (props bl)) (state (props bl)))))) =
     frame_brightness
       (fst (rpi_touchscreen_backlight_update_body
               (mk_backlight_device
                  (mk_backlight_properties (brightness (props bl)) mx'
                     (power (props bl)) (state (props bl))))))) /\
  (forall mx,
     frame_brightness
       (fst (rpi_touchscreen_backlight_update_body
               (mk_backlight_device
                  (mk_backlight_properties 200 mx FB_BLANK_UNBLANK 0)))) = 200 /\
     frame_brightness
       (fst (rpi_touchscreen_backlight_update_body
               (mk_backlight_device
                  (mk_backlight_properties 200 mx FB_BLANK_POWERDOWN 0)))) = 0 /\
     frame_brightness
       (fst (rpi_touchscreen_backlight_update_body
               (mk_backlight_device
                  (mk_backlight_properties 200 mx FB_BLANK_UNBLANK
                     BL_CORE_SUSPENDED)))) = 0).
Proof.
  cbv zeta. split; [| split].
  - unfold rpi_touchscreen_backlight_update_body. cbn [fst frame_brightness].
    rewrite suspended_or_fbblank_bits, negb_involutive, orb_assoc.
    reflexivity.
  - intros mx mx'. reflexivity.
  - intros mx. repeat split.
Qed.

(** C10: whatever the backlight device holds, the status callback returns
    0 and hands the device back as it got it; the brightness it worked out
    is in neither.  The same holds for a refresh request made through
    [backlight_update_status]. *)
Theorem backlight_update_discards_brightness (bl : backlight_device) :
  rpi_touchscreen_backlight_update bl = (bl, 0) /\
  frame_bl (fst (rpi_touchscreen_backlight_update_body bl)) = bl /\
  (forall k, fst (backlight_update_status bl k) = (bl, 0)) /\
  (brightness (props bl) = 200 ->
   power (props bl) = FB_BLANK_UNBLANK ->
   state (props bl) = 0 ->
   frame_brightness (fst (rpi_touchscreen_backlight_update_body bl)) = 200 /\
   snd (rpi_touchscreen_backlight_update bl) = 0).
Proof.
  split; [reflexivity |]. split; [reflexivity |].
  split; [intros k; reflexivity |].
  intros Hb Hp Hs. split; [| reflexivity].
  unfold rpi_touchscreen_backlight_update_body. cbn [fst frame_brightness].
  rewrite Hp, Hs, Hb. reflexivity.
Qed.

Lemma backlight_update_discards_brightness_witness :
  let bl := mk_backlight_device
              (mk_backlight_properties 200 255 FB_BLANK_UNBLANK 0) in
  brightness (props bl) = 200 /\
  power (props bl) = FB_BLANK_UNBLANK /\
  state (props bl) = 0 /\
  frame_brightness (fst (rpi_touchscreen_backlight_update_body bl)) = 200 /\
  snd (rpi_touchscreen_backlight_update bl) = 0.
Proof.
  cbv zeta. split; [reflexivity |]. split; [reflexivity |].
  split; [reflexivity |].
  apply (proj2 (proj2 (proj2 (backlight_update_discards_brightness
    (mk_backlight_device
       (mk_backlight_properties 200 255 FB_BLANK_UNBLANK 0))))));
    reflexivity.
Defined.

(** ** Mode enumeration *)

Lemma to_uint_small (v : Z) : 0 <= v < UINT_MODULUS -> to_uint v = v.
Proof. intros H. unfold to_uint. apply Z.mod_small, H. Qed.

Lemma uint_to_int_small (v : Z) : 0 <= v <= INT_MAX -> uint_to_int v = v.
Proof.
  intros H. unfold uint_to_int.
  assert (Hm : INT_MAX < UINT_MODULUS) by reflexivity.
  rewrite to_uint_small by lia.
  destruct (Z.leb_spec v INT_MAX); [reflexivity | lia].
Qed.

Lemma get_modes_iteration_eq (m : drm_display_mode) (i num : Z) (s : drm_state) :
  get_modes_iteration m i num s =
  if mode_alloc_ok s (mode_allocs s)
  then (to_uint (num + 1),
        mk_drm_state
          (mk_drm_connector
             (probed_modes (connector s) ++ [produced_mode i m])
             (display_info (connector s)))
          (mode_alloc_ok s) (S (mode_allocs s)) (drm_log s))
  else (num,
        mk_drm_state (connector s) (mode_alloc_ok s) (S (mode_allocs s))
          (drm_log s ++ [failed_to_add_mode m])).
Proof.
  unfold get_modes_iteration, drm_mode_duplicate, drm_mode_probed_add, dev_err,
    produced_mode, with_connector, bind, ret, modify.
  destruct (mode_alloc_ok s (mode_allocs s)); [| reflexivity].
  cbn. destruct (i =? 0); reflexivity.
Qed.

Lemma materialized_length_le (ok : nat -> bool) (table : list drm_display_mode) :
  forall n i, (List.length (materialized ok n i table) <= List.length table)%nat.
Proof.
  induction table as [| m rest IH]; intros n i; cbn [materialized List.length].
  - lia.
  - destruct (ok n); cbn [List.length]; specialize (IH (S n) (i + 1)); lia.
Qed.

(** The produced list has one entry per successful allocation request. *)
Lemma materialized_length (ok : nat -> bool) (table : list drm_display_mode) :
  forall n i,
    List.length (materialized ok n i table) =
    List.length (filter ok (seq n (List.length table))).
Proof.
  induction table as [| m rest IH]; intros n i;
    cbn [materialized List.length seq filter].
  - reflexivity.
  - destruct (ok n); cbn [List.length]; rewrite (IH (S n) (i + 1)); reflexivity.
Qed.

(** The loop from index [i] on, when neither counter can wrap. *)
Lemma get_modes_loop_eq (table : list drm_display_mode) :
  forall (i num : Z) (s : drm_state),
    0 <= i -> 0 <= num ->
    i + Z.of_nat (List.length table) < UINT_MODULUS ->
    num + Z.of_nat (List.length table) < UINT_MODULUS ->
    let ok := mode_alloc_ok s in
    let produced := materialized ok (mode_allocs s) i table in
    get_modes_loop table i num s =
    (num + Z.of_nat (List.length produced),
     mk_drm_state
       (mk_drm_connector (probed_modes (connector s) ++ produced)
          (display_info (connector s)))
       ok (mode_allocs s + List.length table)
       (drm_log s ++ skipped_messages ok (mode_allocs s) table)).
Proof.
  induction table as [| m rest IH]; intros i num s Hi Hnum Hiw Hnw; cbv zeta.
  - cbn [get_modes_loop materialized skipped_messages List.length].
    unfold ret. rewrite !app_nil_r, Z.add_0_r, Nat.add_0_r.
    destruct s as [[pm di] ok n lg]. reflexivity.
  - cbn [get_modes_loop materialized skipped_messages].
    cbn [List.length] in Hiw, Hnw. rewrite Nat2Z.inj_succ in Hiw, Hnw.
    unfold bind at 1. rewrite get_modes_iteration_eq.
    rewrite (to_uint_small (i + 1)) by lia.
    assert (Hm : UINT_MODULUS = 4294967296) by reflexivity.
    destruct (mode_alloc_ok s (mode_allocs s)) eqn:Hok.
    + rewrite (to_uint_small (num + 1)) by lia.
      rewrite IH by (cbn [List.length]; lia).
      cbn [mode_alloc_ok mode_allocs connector probed_modes display_info
             drm_log List.length].
      rewrite <- !app_assoc. cbn [app]. rewrite Nat2Z.inj_succ.
      f_equal; [lia |]. f_equal. lia.
    + rewrite IH by (cbn [List.length]; lia).
      cbn [mode_alloc_ok mode_allocs connector probed_modes display_info
             drm_log List.length].
      rewrite <- !app_assoc. cbn [app].
      f_equal. f_equal. lia.
Qed.

Lemma get_modes_over_eq (table : list drm_display_mode) (s : drm_state) :
  Z.of_nat (List.length table) <= INT_MAX ->
  let ok := mode_alloc_ok s in
  let produced := materialized ok (mode_allocs s) 0 table in
  rpi_touchscreen_get_modes_over table s =
  (Z.of_nat (List.length produced),
   mk_drm_state
     (mk_drm_connector (probed_modes (connector s) ++ produced)
        (mk_drm_display_info 217 136 8))
     ok (mode_allocs s + List.length table)
     (drm_log s ++ skipped_messages ok (mode_allocs s) table)).
Proof.
  intros Hlen. cbv zeta.
  assert (Hmax : INT_MAX = 2147483647) by reflexivity.
  assert (Hmod : UINT_MODULUS = 4294967296) by reflexivity.
  unfold rpi_touchscreen_get_modes_over. unfold bind at 1.
  rewrite get_modes_loop_eq by lia. cbv zeta.
  pose proof (materialized_length_le (mode_alloc_ok s) table (mode_allocs s) 0)
    as Hle.
  unfold bind, modify, ret, with_connector, set_bpc, set_width_mm,
    set_height_mm.
  cbn [connector probed_modes display_info width_mm height_mm bpc
         mode_alloc_ok mode_allocs drm_log].
  rewrite Z.add_0_l, uint_to_int_small by lia. reflexivity.
Qed.

(** C5: on the driver's one-entry table, when the duplication of the entry
    succeeds, [rpi_touchscreen_get_modes] returns 1; the connector gains
    exactly one mode, which carries the PREFERRED and the DRIVER type bits
    and the timings of the table entry; and the display info reads
    217 mm by 136 mm at 8 bits per colour channel. *)
Theorem get_modes_single_entry (s : drm_state) :
  mode_alloc_ok s (mode_allocs s) = true ->
  let r := fst (rpi_touchscreen_get_modes s) in
  let s' := snd (rpi_touchscreen_get_modes s) in
  List.length rpi_touchscreen_modes = 1%nat /\
  r = 1 /\
  (exists m,
     probed_modes (connector s') = probed_modes (connector s) ++ [m] /\
     has_type DRM_MODE_TYPE_PREFERRED m = true /\
     has_type DRM_MODE_TYPE_DRIVER m = true /\
     clock m = 83333 /\
     (hdisplay m, hsync_start m, hsync_end m, htotal m) = (800, 861, 863, 907) /\
     (vdisplay m, vsync_start m, vsync_end m, vtotal m) = (480, 487, 489, 510) /\
     vrefresh m = 60) /\
  width_mm (display_info (connector s')) = 217 /\
  height_mm (display_info (connector s')) = 136 /\
  bpc (display_info (connector s')) = 8.
Proof.
  intros Hok. cbv zeta. unfold rpi_touchscreen_get_modes.
  rewrite get_modes_over_eq by (cbn; lia). cbv zeta.
  cbn [rpi_touchscreen_modes materialized skipped_messages List.length].
  rewrite Hok. cbn [fst snd connector probed_modes display_info List.length
                      width_mm height_mm bpc].
  split; [reflexivity |]. split; [reflexivity |].
  split; [| repeat split].
  eexists. split; [reflexivity |]. repeat split.
Qed.

Lemma get_modes_single_entry_witness :
  let s := mk_drm_state (mk_drm_connector [] (mk_drm_display_info 0 0 0))
             (fun _ => true) 0 [] in
  mode_alloc_ok s (mode_allocs s) = true /\
  fst (rpi_touchscreen_get_modes s) = 1 /\
  map name (probed_modes (connector (snd (rpi_touchscreen_get_modes s))))
    = ["800x480"] /\
  map type (probed_modes (connector (snd (rpi_touchscreen_get_modes s))))
    = [72].
Proof.
  cbv zeta. split; [reflexivity |].
  split; [| split; reflexivity].
  apply (get_modes_single_entry
    (mk_drm_state (mk_drm_connector [] (mk_drm_display_info 0 0 0))
       (fun _ => true) 0 [])).
  reflexivity.
Defined.

(** C6: for every mode table (of a size an [int] can count) and every
    pattern of duplication failures, [rpi_touchscreen_get_modes] asks for
    the duplication of every entry, one request per entry, whether or not
    earlier ones failed; adds to the connector exactly the entries whose
    duplication succeeded, in table order; logs one message for each entry
    it skips; and returns the number of entries it added, which is the
    number of successful requests. *)
Theorem get_modes_tolerates_failures
    (table : list drm_display_mode) (s : drm_state) :
  Z.of_nat (List.length table) <= INT_MAX ->
  let ok := mode_alloc_ok s in
  let n := mode_allocs s in
  let r := fst (rpi_touchscreen_get_modes_over table s) in
  let s' := snd (rpi_touchscreen_get_modes_over table s) in
  mode_allocs s' = (n + List.length table)%nat /\
  probed_modes (connector s') =
    probed_modes (connector s) ++ materialized ok n 0 table /\
  drm_log s' = drm_log s ++ skipped_messages ok n table /\
  r = Z.of_nat (List.length (materialized ok n 0 table)) /\
  r = Z.of_nat (List.length (filter ok (seq n (List.length table)))).
Proof.
  intros Hlen. cbv zeta. rewrite get_modes_over_eq by exact Hlen.
  cbv zeta. cbn [fst snd mode_allocs connector probed_modes drm_log].
  rewrite materialized_length. repeat split.
Qed.

(** The specification's example: three entries, the duplication of the
    second one fails; the third is still asked for and the count is 2. *)
Lemma get_modes_tolerates_failures_witness :
  let table :=
    rpi_touchscreen_modes ++ rpi_touchscreen_modes ++ rpi_touchscreen_modes in
  let s := mk_drm_state (mk_drm_connector [] (mk_drm_display_info 0 0 0))
             (fun n => negb (Nat.eqb n 1)) 0 [] in
  Z.of_nat (List.length table) <= INT_MAX /\
  mode_allocs (snd (rpi_touchscreen_get_modes_over table s)) = 3%nat /\
  fst (rpi_touchscreen_get_modes_over table s) = 2 /\
  map type
    (probed_modes (connector (snd (rpi_touchscreen_get_modes_over table s))))
    = [72; 64].
Proof.
  cbv zeta.
  pose proof (get_modes_tolerates_failures
    (rpi_touchscreen_modes ++ rpi_touchscreen_modes ++ rpi_touchscreen_modes)
    (mk_drm_state (mk_drm_connector [] (mk_drm_display_info 0 0 0))
       (fun n => negb (Nat.eqb n 1)) 0 [])) as H.
  cbv zeta in H.
  assert (Hlen : Z.of_nat 3 <= INT_MAX) by (vm_compute; discriminate).
  specialize (H Hlen). destruct H as (Ha & Hp & _ & _ & Hr).
  split; [exact Hlen |]. split; [exact Ha |]. split; [exact Hr |].
  rewrite Hp. reflexivity.
Defined.

(** ** Probe *)

Ltac unfold_probe :=
  unfold rpi_touchscreen_dsi_probe, rpi_touchscreen_get_i2c, store_ts,
    store_dsi, emit, bind, ret, modify.

(** Allocation failure comes before the bridge lookup. *)
Lemma probe_without_memory (env : probe_env) (s : probe_state) :
  kzalloc_ok env = false ->
  rpi_touchscreen_dsi_probe env s = (- ENOMEM, s).
Proof. intros H. unfold_probe. rewrite H. reflexivity. Qed.

(** The bridge node is there but no I2C client is registered for it yet:
    the lookup gives a null pointer and the probe asks to be retried. *)
Lemma probe_defers_for_unregistered_bridge
    (env : probe_env) (s : probe_state) (node : nat) :
  kzalloc_ok env = true ->
  of_parse_phandle env "raspberrypi,touchscreen-bridge" = Some node ->
  of_find_i2c_device_by_node env node = None ->
  fst (rpi_touchscreen_dsi_probe env s) = - EPROBE_DEFER.
Proof.
  intros Hmem Hnode Hdev. unfold_probe. rewrite Hmem, Hnode, Hdev.
  reflexivity.
Qed.

(** Once the client is registered, a probe whose panel registration and
    DSI attach succeed returns 0 and keeps the client as the bridge. *)
Lemma probe_succeeds_for_registered_bridge
    (env : probe_env) (s : probe_state) (node client : nat) :
  kzalloc_ok env = true ->
  of_parse_phandle env "raspberrypi,touchscreen-bridge" = Some node ->
  of_find_i2c_device_by_node env node = Some client ->
  0 <= drm_panel_add env ->
  mipi_dsi_attach env = 0 ->
  fst (rpi_touchscreen_dsi_probe env s) = 0 /\
  drvdata (snd (rpi_touchscreen_dsi_probe env s)) =
    Some (set_bridge_i2c (I2C_CLIENT client) zeroed_panel).
Proof.
  intros Hmem Hnode Hdev Hadd Hattach. unfold_probe.
  rewrite Hmem, Hnode, Hdev. cbn.
  destruct (Z.ltb_spec (drm_panel_add env) 0); [lia |].
  cbn. auto.
Qed.

(** C8 at the input where the code departs from it: the device-tree node
    has no ["raspberrypi,touchscreen-bridge"] property.  The lookup then
    yields ERR_PTR(-ENODEV), which is no device handle; the probe's null
    test lets it through, so instead of returning -EPROBE_DEFER the probe
    registers the panel, returns what the DSI attach returns (0 here) and
    keeps the error pointer as its bridge. *)
Theorem probe_accepts_error_pointer_as_bridge :
  let env := mk_probe_env true (fun _ => None) (fun _ => None) 0 0 in
  let looked_up :=
    fst (rpi_touchscreen_get_i2c env "raspberrypi,touchscreen-bridge" unbound) in
  let r := fst (rpi_touchscreen_dsi_probe env unbound) in
  let s' := snd (rpi_touchscreen_dsi_probe env unbound) in
  looked_up = I2C_ERR_PTR (- ENODEV) /\
  resolves_to_device looked_up = false /\
  r = 0 /\
  r <> - EPROBE_DEFER /\
  option_map bridge_i2c (drvdata s') = Some (I2C_ERR_PTR (- ENODEV)) /\
  events s' = [Drm_panel_added].
Proof.
  cbv zeta. repeat split. vm_compute. discriminate.
Qed.

(** * Further properties of the driver *)

(** ** Sequences of lifecycle calls *)

Ltac callback_cases o k :=
  destruct o; cbn [rpi_touchscreen_funcs];
  [rewrite prepare_eq | rewrite enable_eq | rewrite disable_eq
  | rewrite unprepare_eq];
  cbn [snd fst]; unfold switch_backlight, logged; destruct_kernel k.

Lemma run_cons (o : lifecycle_op) (rest : list lifecycle_op) (k : kernel) :
  run (o :: rest) k = run rest (snd (rpi_touchscreen_funcs o k)).
Proof. reflexivity. Qed.

Lemma run_flags (ops : list lifecycle_op) (k : kernel) :
  prepared (panel (run ops k)) = prepared_after ops (prepared (panel k)) /\
  enabled (panel (run ops k)) = enabled_after ops (enabled (panel k)).
Proof.
  revert k. induction ops as [| o rest IH]; intros k; [split; reflexivity |].
  rewrite run_cons. destruct (IH (snd (rpi_touchscreen_funcs o k))) as [Hp He].
  rewrite Hp, He. unfold prepared_after, enabled_after. cbn [fold_left].
  clear. callback_cases o k; destruct p, e, bl; split; reflexivity.
Qed.

(** X1: after any sequence of lifecycle calls the two flags are those of
    the last call that concerns each: [prepared] is true if the last of
    the Prepare / Unprepare calls was Prepare, [enabled] is true if the
    last of the Enable / Disable calls was Enable, and a flag no call
    concerned keeps its value. *)
Theorem flags_follow_last_call (ops : list lifecycle_op) (k : kernel) :
  prepared (panel (run ops k)) = prepared_after ops (prepared (panel k)) /\
  enabled (panel (run ops k)) = enabled_after ops (enabled (panel k)).
Proof. exact (run_flags ops k). Qed.

(** One call leaves alone what X2 lists. *)
Lemma call_frame (o : lifecycle_op) (k : kernel) :
  let k' := snd (rpi_touchscreen_funcs o k) in
  bridge_i2c (panel k') = bridge_i2c (panel k) /\
  atmel_ver (panel k') = atmel_ver (panel k) /\
  option_map untouched_props (backlight (panel k')) =
    option_map untouched_props (backlight (panel k)).
Proof.
  cbv zeta. callback_cases o k; destruct p, e, bl; repeat split.
Qed.

(** X2: no sequence of lifecycle calls changes the bridge pointer, the
    firmware version, whether a backlight is attached, or the backlight's
    brightness, maximum brightness and state flags; of the backlight only
    [power] is ever written. *)
Theorem lifecycle_calls_frame (ops : list lifecycle_op) (k : kernel) :
  bridge_i2c (panel (run ops k)) = bridge_i2c (panel k) /\
  atmel_ver (panel (run ops k)) = atmel_ver (panel k) /\
  option_map untouched_props (backlight (panel (run ops k))) =
    option_map untouched_props (backlight (panel k)).
Proof.
  revert k. induction ops as [| o rest IH]; intros k; [repeat split |].
  rewrite run_cons.
  destruct (IH (snd (rpi_touchscreen_funcs o k))) as (Hb & Hv & Hu).
  destruct (call_frame o k) as (Hb' & Hv' & Hu').
  rewrite Hb, Hv, Hu. auto.
Qed.

Lemma call_keeps_power_following (o : lifecycle_op) (k : kernel) :
  power_follows_enabled (panel k) = true ->
  power_follows_enabled (panel (snd (rpi_touchscreen_funcs o k))) = true.
Proof.
  unfold power_follows_enabled. intros H.
  callback_cases o k; cbn in H |- *; destruct p, e, bl; cbn in H |- *;
    solve [exact H | reflexivity].
Qed.

(** X3: once the backlight's power agrees with the [enabled] flag
    (FB_BLANK_UNBLANK when enabled, FB_BLANK_POWERDOWN when not), it
    agrees after every call of every sequence of lifecycle calls, in
    order or not. *)
Theorem power_follows_enabled_after_every_call
    (ops : list lifecycle_op) (k : kernel) :
  power_follows_enabled (panel k) = true ->
  Forall (fun k' => power_follows_enabled (panel k') = true) (trace ops k).
Proof.
  revert k. induction ops as [| o rest IH]; intros k H; cbn [trace].
  - constructor.
  - pose proof (call_keeps_power_following o k H) as H'.
    constructor; [exact H' | apply IH, H'].
Qed.

Lemma power_follows_enabled_after_every_call_witness :
  let bl := mk_backlight_device (mk_backlight_properties 200 255 4 0) in
  let k := mk_kernel (mk_rpi_touchscreen (I2C_CLIENT 0) (Some bl) false false 0)
             [] [] in
  let ops := [Enable; Unprepare; Disable; Disable; Enable] in
  power_follows_enabled (panel k) = true /\
  Forall (fun k' => power_follows_enabled (panel k') = true) (trace ops k).
Proof.
  cbv zeta. split; [reflexivity |].
  apply (power_follows_enabled_after_every_call
    [Enable; Unprepare; Disable; Disable; Enable]
    (mk_kernel
       (mk_rpi_touchscreen (I2C_CLIENT 0)
          (Some (mk_backlight_device (mk_backlight_properties 200 255 4 0)))
          false false 0) [] [])).
  reflexivity.
Defined.

Lemma alternates_app (on : bool) (bl : backlight_device)
    (rest : list backlight_device) :
  power (props bl) = power_for on ->
  alternates (negb on) rest = true ->
  alternates on (bl :: rest) = true.
Proof.
  intros Hp Hr. cbn [alternates]. rewrite Hp, Z.eqb_refl, Hr. reflexivity.
Qed.

(** X4: with a backlight attached, the refresh requests a sequence of
    lifecycle calls adds are one per call that changes [enabled], and they
    switch the backlight on and off in turn, the first one away from the
    state the panel started in: no two requests in a row ask for the same
    power. *)
Theorem refresh_requests_alternate
    (ops : list lifecycle_op) (k : kernel) (bl : backlight_device) :
  backlight (panel k) = Some bl ->
  exists added,
    bl_requests (run ops k) = bl_requests k ++ added /\
    List.length added = enable_transitions ops (enabled (panel k)) /\
    alternates (negb (enabled (panel k))) added = true.
Proof.
  revert k bl. induction ops as [| o rest IH]; intros k bl Hbl.
  - exists []. rewrite app_nil_r. repeat split.
  - rewrite run_cons.
    destruct o; cbn [rpi_touchscreen_funcs enable_transitions].
    + rewrite prepare_eq. cbn [snd].
      destruct (prepared (panel k));
        [exact (IH k bl Hbl) | exact (IH (with_panel (set_prepared true) k) bl Hbl)].
    + rewrite enable_eq. cbn [snd].
      destruct (enabled (panel k)) eqn:He.
      * destruct (IH k bl Hbl) as (added & Hreq & Hlen & Halt).
        rewrite He in Hlen, Halt. exists added. auto.
      * unfold switch_backlight. rewrite Hbl.
        edestruct IH as (added & Hreq & Hlen & Halt);
          [| rewrite Hreq; cbn [with_panel bl_requests panel set_enabled enabled]
               in Hlen, Halt |- *].
        { cbn. reflexivity. }
        exists (set_power FB_BLANK_UNBLANK bl :: added).
        rewrite <- app_assoc. cbn [app List.length]. rewrite Hlen.
        repeat split. apply alternates_app; [reflexivity | exact Halt].
    + rewrite disable_eq. cbn [snd]. unfold logged.
      destruct (enabled (panel k)) eqn:He.
      * unfold switch_backlight. cbn [panel]. rewrite Hbl.
        edestruct IH as (added & Hreq & Hlen & Halt);
          [| rewrite Hreq; cbn [with_panel bl_requests panel set_enabled enabled
                                  dmesg]
               in Hlen, Halt |- *].
        { cbn. reflexivity. }
        exists (set_power FB_BLANK_POWERDOWN bl :: added).
        rewrite <- app_assoc. cbn [app List.length]. rewrite Hlen.
        repeat split. apply alternates_app; [reflexivity | exact Halt].
      * edestruct IH as (added & Hreq & Hlen & Halt);
          [| rewrite Hreq; cbn [bl_requests panel] in Hlen, Halt |- *].
        { cbn [panel]. exact Hbl. }
        rewrite He in Hlen, Halt. exists added. auto.
    + rewrite unprepare_eq. cbn [snd].
      destruct (prepared (panel k));
        [exact (IH (with_panel (set_prepared false) k) bl Hbl)
        | exact (IH k bl Hbl)].
Qed.

Lemma refresh_requests_alternate_witness :
  let bl := mk_backlight_device (mk_backlight_properties 200 255 0 0) in
  let k := mk_kernel (mk_rpi_touchscreen (I2C_CLIENT 0) (Some bl) false false 0)
             [] [] in
  let ops := [Disable; Enable; Enable; Prepare; Disable; Enable] in
  backlight (panel k) = Some bl /\
  map (fun b => power (props b)) (bl_requests (run ops k)) = [0; 4; 0] /\
  exists added,
    bl_requests (run ops k) = bl_requests k ++ added /\
    List.length added = enable_transitions ops (enabled (panel k)) /\
    alternates (negb (enabled (panel k))) added = true.
Proof.
  cbv zeta. split; [reflexivity |]. split; [reflexivity |].
  apply (refresh_requests_alternate
    [Disable; Enable; Enable; Prepare; Disable; Enable]
    (mk_kernel
       (mk_rpi_touchscreen (I2C_CLIENT 0)
          (Some (mk_backlight_device (mk_backlight_properties 200 255 0 0)))
          false false 0) [] [])
    (mk_backlight_device (mk_backlight_properties 200 255 0 0))).
  reflexivity.
Defined.

Lemma run_without_backlight (ops : list lifecycle_op) (k : kernel) :
  backlight (panel k) = None ->
  backlight (panel (run ops k)) = None /\
  bl_requests (run ops k) = bl_requests k.
Proof.
  revert k. induction ops as [| o rest IH]; intros k Hbl; [auto |].
  rewrite run_cons.
  assert (Hstep : backlight (panel (snd (rpi_touchscreen_funcs o k))) = None /\
                  bl_requests (snd (rpi_touchscreen_funcs o k)) = bl_requests k).
  { clear IH. callback_cases o k; cbn in Hbl; subst; destruct p, e; auto. }
  destruct Hstep as [Hb Hr].
  destruct (IH _ Hb) as [Hb' Hr']. rewrite Hb', Hr', Hr. auto.
Qed.

(** X5: without a backlight no sequence of lifecycle calls ever asks for a
    refresh, and none attaches a backlight. *)
Theorem no_backlight_no_refresh (ops : list lifecycle_op) (k : kernel) :
  backlight (panel k) = None ->
  backlight (panel (run ops k)) = None /\
  bl_requests (run ops k) = bl_requests k.
Proof. exact (run_without_backlight ops k). Qed.

Lemma no_backlight_no_refresh_witness :
  let k := mk_kernel zeroed_panel [] [] in
  let ops := [Prepare; Enable; Disable; Enable; Unprepare] in
  backlight (panel k) = None /\
  backlight (panel (run ops k)) = None /\
  bl_requests (run ops k) = bl_requests k.
Proof.
  cbv zeta. split; [reflexivity |].
  apply (no_backlight_no_refresh
    [Prepare; Enable; Disable; Enable; Unprepare]
    (mk_kernel zeroed_panel [] [])).
  reflexivity.
Defined.

(** X6: Prepare and Unprepare commute with Enable and Disable: either
    order of one call of each pair leaves the same panel, backlight,
    refresh requests and kernel log. *)
Theorem prepare_calls_commute_with_enable_calls
    (o1 o2 : lifecycle_op) (k : kernel) :
  on_prepared o1 = true ->
  on_prepared o2 = false ->
  run [o1; o2] k = run [o2; o1] k.
Proof.
  intros H1 H2. cbn [run fold_left].
  destruct o1; try discriminate H1; destruct o2; try discriminate H2;
    cbn [rpi_touchscreen_funcs];
    rewrite ?prepare_eq, ?unprepare_eq, ?enable_eq, ?disable_eq; cbn [snd];
    unfold switch_backlight, logged; destruct_kernel k;
    destruct p, e, bl; reflexivity.
Qed.

Lemma prepare_calls_commute_with_enable_calls_witness :
  let bl := mk_backlight_device (mk_backlight_properties 200 255 4 0) in
  let k := mk_kernel (mk_rpi_touchscreen (I2C_CLIENT 0) (Some bl) false false 0)
             [] [] in
  on_prepared Prepare = true /\
  on_prepared Enable = false /\
  run [Prepare; Enable] k = run [Enable; Prepare] k.
Proof.
  cbv zeta. split; [reflexivity |]. split; [reflexivity |].
  apply (prepare_calls_commute_with_enable_calls Prepare Enable
    (mk_kernel
       (mk_rpi_touchscreen (I2C_CLIENT 0)
          (Some (mk_backlight_device (mk_backlight_properties 200 255 4 0)))
          false false 0) [] [])); reflexivity.
Defined.

(** X7: Prepare followed by Unprepare on an unprepared panel, and
    Unprepare followed by Prepare on a prepared one, give back the kernel
    they started from, whole. *)
Theorem prepare_unprepare_round_trip (k : kernel) :
  (prepared (panel k) = false -> run [Prepare; Unprepare] k = k) /\
  (prepared (panel k) = true -> run [Unprepare; Prepare] k = k).
Proof.
  split; intros H; cbn [run fold_left rpi_touchscreen_funcs];
    rewrite ?prepare_eq, ?unprepare_eq; cbn [snd];
    destruct_kernel k; cbn in H; subst; reflexivity.
Qed.

Lemma prepare_unprepare_round_trip_witness :
  let k := mk_kernel zeroed_panel [] [] in
  prepared (panel k) = false /\ run [Prepare; Unprepare] k = k.
Proof.
  cbv zeta. split; [reflexivity |].
  apply (proj1 (prepare_unprepare_round_trip (mk_kernel zeroed_panel [] []))).
  reflexivity.
Defined.

(** X8: the callbacks put no order on the two flags: from any panel state,
    at most two calls reach any wanted values of [prepared] and
    [enabled], the pair enabled-but-unprepared included. *)
Theorem every_flag_pair_reachable (k : kernel) (p e : bool) :
  exists ops,
    (List.length ops <= 2)%nat /\
    prepared (panel (run ops k)) = p /\
    enabled (panel (run ops k)) = e.
Proof.
  exists [if p then Prepare else Unprepare; if e then Enable else Disable].
  split; [cbn; lia |].
  destruct (run_flags
              [if p then Prepare else Unprepare; if e then Enable else Disable]
              k) as [Hp He].
  rewrite Hp, He. destruct p, e; split; reflexivity.
Qed.

Lemma dmesg_call (o : lifecycle_op) (k : kernel) :
  dmesg (snd (rpi_touchscreen_funcs o k)) =
  dmesg k ++ (if is_disable o then [String.append "disable" newline] else []).
Proof.
  callback_cases o k; destruct p, e, bl; cbn; rewrite ?app_nil_r; reflexivity.
Qed.

(** X9: the kernel log gains one "disable" line for every Disable call of
    a sequence, whether that call found the panel enabled or not, and
    nothing for the other calls. *)
Theorem one_log_line_per_disable_call (ops : list lifecycle_op) (k : kernel) :
  dmesg (run ops k) =
  dmesg k ++ repeat (String.append "disable" newline)
               (List.length (filter is_disable ops)).
Proof.
  revert k. induction ops as [| o rest IH]; intros k.
  - cbn. rewrite app_nil_r. reflexivity.
  - rewrite run_cons, IH, dmesg_call. cbn [filter].
    destruct (is_disable o); cbn [List.length repeat].
    + rewrite <- app_assoc. reflexivity.
    + rewrite app_nil_r. reflexivity.
Qed.

(** ** Mode enumeration over any table *)

Lemma preferred_bit_of_driver_mode (m : drm_display_mode) :
  has_type DRM_MODE_TYPE_PREFERRED (or_type DRM_MODE_TYPE_DRIVER m) =
  has_type DRM_MODE_TYPE_PREFERRED m.
Proof.
  unfold has_type, or_type. cbn [type].
  rewrite Z.land_lor_distr_l.
  change (Z.land DRM_MODE_TYPE_DRIVER DRM_MODE_TYPE_PREFERRED) with 0.
  rewrite Z.lor_0_r. reflexivity.
Qed.

Lemma has_type_of_testbit (n : Z) (m : drm_display_mode) :
  0 <= n ->
  Z.testbit (type m) n = true ->
  has_type (Z.shiftl 1 n) m = true.
Proof.
  intros Hn Hb. unfold has_type. apply negb_true_iff, Z.eqb_neq. intros H.
  apply (f_equal (fun v => Z.testbit v n)) in H.
  rewrite Z.land_spec, Hb, Z.bits_0, Z.shiftl_1_l, Z.pow2_bits_true in H
    by exact Hn.
  discriminate H.
Qed.

Lemma produced_mode_is_driver_mode (i : Z) (m : drm_display_mode) :
  has_type DRM_MODE_TYPE_DRIVER (produced_mode i m) = true.
Proof.
  apply (has_type_of_testbit 6); [lia |].
  unfold produced_mode, drm_mode_set_name, or_type.
  destruct (i =? 0); cbn [type]; rewrite !Z.lor_spec.
  - change (Z.testbit DRM_MODE_TYPE_DRIVER 6) with true.
    rewrite orb_true_r. reflexivity.
  - change (Z.testbit DRM_MODE_TYPE_DRIVER 6) with true.
    apply orb_true_r.
Qed.

Lemma materialized_later_not_preferred (ok : nat -> bool)
    (table : list drm_display_mode) :
  forall n i,
    0 < i ->
    Forall (fun m => has_type DRM_MODE_TYPE_PREFERRED m = false) table ->
    Forall (fun m => has_type DRM_MODE_TYPE_PREFERRED m = false)
      (materialized ok n i table).
Proof.
  induction table as [| m rest IH]; intros n i Hi Hall; cbn [materialized].
  - constructor.
  - inversion Hall as [| m' rest' Hm Hrest]; subst.
    assert (Hnext : Forall
              (fun m => has_type DRM_MODE_TYPE_PREFERRED m = false)
              (materialized ok (S n) (i + 1) rest))
      by (apply IH; [lia | exact Hrest]).
    destruct (ok n); [| exact Hnext].
    constructor; [| exact Hnext].
    unfold produced_mode. destruct (Z.eqb_spec i 0) as [E | _]; [lia |].
    unfold has_type, drm_mode_set_name. cbn [type].
    fold (has_type DRM_MODE_TYPE_PREFERRED (or_type DRM_MODE_TYPE_DRIVER m)).
    rewrite preferred_bit_of_driver_mode. exact Hm.
Qed.

(** X10: the preferred mark goes to table index 0 and to nothing else.  If
    the duplication of the first entry fails (and no table entry carries
    the PREFERRED bit by itself, as none of the driver's does), the modes
    added to the connector include no preferred mode at all, however many
    later entries succeed. *)
Theorem no_preferred_mode_when_first_entry_fails
    (table : list drm_display_mode) (s : drm_state) :
  Z.of_nat (List.length table) <= INT_MAX ->
  mode_alloc_ok s (mode_allocs s) = false ->
  Forall (fun m => has_type DRM_MODE_TYPE_PREFERRED m = false) table ->
  exists added,
    probed_modes (connector (snd (rpi_touchscreen_get_modes_over table s))) =
      probed_modes (connector s) ++ added /\
    List.length added =
      Z.to_nat (fst (rpi_touchscreen_get_modes_over table s)) /\
    Forall (fun m => has_type DRM_MODE_TYPE_PREFERRED m = false) added.
Proof.
  intros Hlen Hfail Hall. rewrite get_modes_over_eq by exact Hlen. cbv zeta.
  cbn [fst snd connector probed_modes].
  exists (materialized (mode_alloc_ok s) (mode_allocs s) 0 table).
  split; [reflexivity |]. split; [rewrite Nat2Z.id; reflexivity |].
  destruct table as [| m rest]; cbn [materialized]; [constructor |].
  rewrite Hfail. inversion Hall; subst.
  apply materialized_later_not_preferred; [lia | assumption].
Qed.

Lemma no_preferred_mode_when_first_entry_fails_witness :
  let table :=
    rpi_touchscreen_modes ++ rpi_touchscreen_modes ++ rpi_touchscreen_modes in
  let s := mk_drm_state (mk_drm_connector [] (mk_drm_display_info 0 0 0))
             (fun n => negb (Nat.eqb n 0)) 0 [] in
  Z.of_nat (List.length table) <= INT_MAX /\
  mode_alloc_ok s (mode_allocs s) = false /\
  Forall (fun m => has_type DRM_MODE_TYPE_PREFERRED m = false) table /\
  fst (rpi_touchscreen_get_modes_over table s) = 2 /\
  exists added,
    probed_modes (connector (snd (rpi_touchscreen_get_modes_over table s))) =
      probed_modes (connector s) ++ added /\
    List.length added =
      Z.to_nat (fst (rpi_touchscreen_get_modes_over table s)) /\
    Forall (fun m => has_type DRM_MODE_TYPE_PREFERRED m = false) added.
Proof.
  cbv zeta.
  assert (Hlen : Z.of_nat 3 <= INT_MAX) by (vm_compute; discriminate).
  assert (Hall : Forall (fun m => has_type DRM_MODE_TYPE_PREFERRED m = false)
                   (rpi_touchscreen_modes ++ rpi_touchscreen_modes
                    ++ rpi_touchscreen_modes))
    by (repeat constructor).
  split; [exact Hlen |]. split; [reflexivity |]. split; [exact Hall |].
  split; [reflexivity |].
  exact (no_preferred_mode_when_first_entry_fails
    (rpi_touchscreen_modes ++ rpi_touchscreen_modes ++ rpi_touchscreen_modes)
    (mk_drm_state (mk_drm_connector [] (mk_drm_display_info 0 0 0))
       (fun n => negb (Nat.eqb n 0)) 0 [])
    Hlen eq_refl Hall).
Defined.

Lemma materialized_driver_modes (ok : nat -> bool)
    (table : list drm_display_mode) :
  forall n i,
    Forall (fun m => has_type DRM_MODE_TYPE_DRIVER m = true)
      (materialized ok n i table).
Proof.
  induction table as [| m rest IH]; intros n i; cbn [materialized].
  - constructor.
  - destruct (ok n); [constructor |]; auto using produced_mode_is_driver_mode.
Qed.

Lemma materialized_timings (ok : nat -> bool) (table : list drm_display_mode) :
  forall n i,
    map timings (materialized ok n i table) =
    map timings (duplicated ok n table).
Proof.
  induction table as [| m rest IH]; intros n i;
    cbn [materialized duplicated map]; [reflexivity |].
  destruct (ok n); cbn [map]; rewrite IH; [| reflexivity].
  f_equal. unfold produced_mode. destruct (i =? 0); reflexivity.
Qed.

(** X11: whatever the table and the allocation outcomes, every mode the
    enumeration adds carries the DRIVER type bit, and the added modes have,
    in table order, exactly the timings (clock, sizes, sync offsets,
    totals, refresh rate, flags) of the entries whose duplication
    succeeded; modes already on the connector stay in front, untouched. *)
Theorem added_modes_are_driver_modes_with_table_timings
    (table : list drm_display_mode) (s : drm_state) :
  Z.of_nat (List.length table) <= INT_MAX ->
  exists added,
    probed_modes (connector (snd (rpi_touchscreen_get_modes_over table s))) =
      probed_modes (connector s) ++ added /\
    Forall (fun m => has_type DRM_MODE_TYPE_DRIVER m = true) added /\
    map timings added =
      map timings (duplicated (mode_alloc_ok s) (mode_allocs s) table).
Proof.
  intros Hlen. rewrite get_modes_over_eq by exact Hlen. cbv zeta.
  cbn [snd connector probed_modes].
  exists (materialized (mode_alloc_ok s) (mode_allocs s) 0 table).
  split; [reflexivity |].
  split; [apply materialized_driver_modes | apply materialized_timings].
Qed.

Lemma added_modes_are_driver_modes_with_table_timings_witness :
  let s := mk_drm_state (mk_drm_connector [] (mk_drm_display_info 0 0 0))
             (fun _ => true) 0 [] in
  Z.of_nat (List.length rpi_touchscreen_modes) <= INT_MAX /\
  exists added,
    probed_modes
      (connector (snd (rpi_touchscreen_get_modes_over rpi_touchscreen_modes s)))
      = probed_modes (connector s) ++ added /\
    Forall (fun m => has_type DRM_MODE_TYPE_DRIVER m = true) added /\
    map timings added =
      map timings
        (duplicated (mode_alloc_ok s) (mode_allocs s) rpi_touchscreen_modes).
Proof.
  cbv zeta.
  assert (Hlen : Z.of_nat 1 <= INT_MAX) by (vm_compute; discriminate).
  split; [exact Hlen |].
  exact (added_modes_are_driver_modes_with_table_timings
    rpi_touchscreen_modes
    (mk_drm_state (mk_drm_connector [] (mk_drm_display_info 0 0 0))
       (fun _ => true) 0 [])
    Hlen).
Defined.

Lemma materialized_none (ok : nat -> bool) (table : list drm_display_mode) :
  forall n i,
    (forall j, (n <= j < n + List.length table)%nat -> ok j = false) ->
    materialized ok n i table = [] /\
    List.length (skipped_messages ok n table) = List.length table.
Proof.
  induction table as [| m rest IH]; intros n i Hfail;
    cbn [materialized skipped_messages List.length]; [auto |].
  rewrite (Hfail n) by (cbn [List.length]; lia).
  destruct (IH (S n) (i + 1)) as [Hm Hs].
  - intros j Hj. apply Hfail. cbn [List.length]. lia.
  - rewrite Hm. cbn [List.length]. rewrite Hs. auto.
Qed.

Lemma materialized_all (ok : nat -> bool) (table : list drm_display_mode) :
  forall n i,
    (forall j, (n <= j < n + List.length table)%nat -> ok j = true) ->
    List.length (materialized ok n i table) = List.length table /\
    skipped_messages ok n table = [].
Proof.
  induction table as [| m rest IH]; intros n i Hok;
    cbn [materialized skipped_messages List.length]; [auto |].
  rewrite (Hok n) by (cbn [List.length]; lia).
  destruct (IH (S n) (i + 1)) as [Hm Hs].
  - intros j Hj. apply Hok. cbn [List.length]. lia.
  - cbn [List.length]. rewrite Hm, Hs. auto.
Qed.

(** X12: when the duplication of every entry fails the enumeration
    returns 0 and not an error, leaves the connector's mode list as it
    was, logs one message per entry, and still writes the display info
    (217 mm by 136 mm, 8 bits per channel). *)
Theorem all_duplications_failing
    (table : list drm_display_mode) (s : drm_state) :
  Z.of_nat (List.length table) <= INT_MAX ->
  (forall j,
     (mode_allocs s <= j < mode_allocs s + List.length table)%nat ->
     mode_alloc_ok s j = false) ->
  let r := fst (rpi_touchscreen_get_modes_over table s) in
  let s' := snd (rpi_touchscreen_get_modes_over table s) in
  r = 0 /\
  probed_modes (connector s') = probed_modes (connector s) /\
  (exists lines,
     drm_log s' = drm_log s ++ lines /\
     List.length lines = List.length table) /\
  display_info (connector s') = mk_drm_display_info 217 136 8.
Proof.
  intros Hlen Hfail. cbv zeta. rewrite get_modes_over_eq by exact Hlen.
  cbv zeta. cbn [fst snd connector probed_modes display_info drm_log].
  destruct (materialized_none (mode_alloc_ok s) table (mode_allocs s) 0 Hfail)
    as [Hm Hs].
  rewrite Hm, app_nil_r. repeat split.
  eexists. split; [reflexivity | exact Hs].
Qed.

Lemma all_duplications_failing_witness :
  let table := rpi_touchscreen_modes ++ rpi_touchscreen_modes in
  let s := mk_drm_state (mk_drm_connector [] (mk_drm_display_info 0 0 0))
             (fun _ => false) 0 [] in
  Z.of_nat (List.length table) <= INT_MAX /\
  (forall j,
     (mode_allocs s <= j < mode_allocs s + List.length table)%nat ->
     mode_alloc_ok s j = false) /\
  fst (rpi_touchscreen_get_modes_over table s) = 0 /\
  probed_modes (connector (snd (rpi_touchscreen_get_modes_over table s))) = [].
Proof.
  cbv zeta.
  assert (Hlen : Z.of_nat 2 <= INT_MAX) by (vm_compute; discriminate).
  split; [exact Hlen |]. split; [intros j _; reflexivity |].
  pose proof (all_duplications_failing
    (rpi_touchscreen_modes ++ rpi_touchscreen_modes)
    (mk_drm_state (mk_drm_connector [] (mk_drm_display_info 0 0 0))
       (fun _ => false) 0 [])
    Hlen (fun j _ => eq_refl)) as H.
  cbv zeta in H. destruct H as (Hr & Hp & _). split; [exact Hr | exact Hp].
Defined.

(** X13: the value returned is a count, never an error: it lies between 0
    and the number of table entries; when every duplication succeeds it is
    the number of entries and nothing is logged. *)
Theorem get_modes_count_bounds
    (table : list drm_display_mode) (s : drm_state) :
  Z.of_nat (List.length table) <= INT_MAX ->
  let r := fst (rpi_touchscreen_get_modes_over table s) in
  let s' := snd (rpi_touchscreen_get_modes_over table s) in
  0 <= r <= Z.of_nat (List.length table) /\
  ((forall j,
      (mode_allocs s <= j < mode_allocs s + List.length table)%nat ->
      mode_alloc_ok s j = true) ->
   r = Z.of_nat (List.length table) /\ drm_log s' = drm_log s).
Proof.
  intros Hlen. cbv zeta. rewrite get_modes_over_eq by exact Hlen.
  cbv zeta. cbn [fst snd drm_log].
  pose proof (materialized_length_le (mode_alloc_ok s) table (mode_allocs s) 0)
    as Hle.
  split; [lia |]. intros Hok.
  destruct (materialized_all (mode_alloc_ok s) table (mode_allocs s) 0 Hok)
    as [Hm Hs].
  rewrite Hm, Hs, app_nil_r. auto.
Qed.

Lemma get_modes_count_bounds_witness :
  let table := rpi_touchscreen_modes ++ rpi_touchscreen_modes in
  let s := mk_drm_state (mk_drm_connector [] (mk_drm_display_info 0 0 0))
             (fun _ => true) 0 [] in
  Z.of_nat (List.length table) <= INT_MAX /\
  (forall j,
     (mode_allocs s <= j < mode_allocs s + List.length table)%nat ->
     mode_alloc_ok s j = true) /\
  fst (rpi_touchscreen_get_modes_over table s) = 2.
Proof.
  cbv zeta.
  assert (Hlen : Z.of_nat 2 <= INT_MAX) by (vm_compute; discriminate).
  split; [exact Hlen |]. split; [intros j _; reflexivity |].
  pose proof (get_modes_count_bounds
    (rpi_touchscreen_modes ++ rpi_touchscreen_modes)
    (mk_drm_state (mk_drm_connector [] (mk_drm_display_info 0 0 0))
       (fun _ => true) 0 [])
    Hlen) as H.
  cbv zeta in H. destruct H as [_ H].
  exact (proj1 (H (fun j _ => eq_refl))).
Defined.

Lemma materialized_regardless_of_request (ok : nat -> bool)
    (table : list drm_display_mode) :
  (forall j, ok j = true) ->
  forall n n' i, materialized ok n i table = materialized ok n' i table.
Proof.
  intros Hok. induction table as [| m rest IH]; intros n n' i;
    cbn [materialized]; [reflexivity |].
  rewrite !Hok. f_equal. apply IH.
Qed.

(** X14: the enumeration is no pure query.  Each call adds its modes to
    the connector again: with an allocator that never fails, two calls in
    a row leave the modes of one call twice behind the modes that were
    there, and both calls return the table's length. *)
Theorem get_modes_twice_adds_twice
    (table : list drm_display_mode) (s : drm_state) :
  Z.of_nat (List.length table) <= INT_MAX ->
  (forall j, mode_alloc_ok s j = true) ->
  let s1 := snd (rpi_touchscreen_get_modes_over table s) in
  let s2 := snd (rpi_touchscreen_get_modes_over table s1) in
  exists added,
    probed_modes (connector s1) = probed_modes (connector s) ++ added /\
    probed_modes (connector s2) = probed_modes (connector s) ++ added ++ added /\
    List.length added = List.length table /\
    fst (rpi_touchscreen_get_modes_over table s) =
      Z.of_nat (List.length table) /\
    fst (rpi_touchscreen_get_modes_over table s1) =
      Z.of_nat (List.length table).
Proof.
  intros Hlen Hok. cbv zeta.
  rewrite (get_modes_over_eq table s) by exact Hlen. cbv zeta. cbn [fst snd].
  rewrite get_modes_over_eq by exact Hlen. cbv zeta.
  cbn [fst snd connector probed_modes mode_alloc_ok mode_allocs].
  exists (materialized (mode_alloc_ok s) (mode_allocs s) 0 table).
  rewrite (materialized_regardless_of_request (mode_alloc_ok s) table Hok
             (mode_allocs s + List.length table) (mode_allocs s) 0).
  destruct (materialized_all (mode_alloc_ok s) table (mode_allocs s) 0
              (fun j _ => Hok j)) as [Hm _].
  rewrite <- app_assoc, Hm. repeat split.
Qed.

Lemma get_modes_twice_adds_twice_witness :
  let s := mk_drm_state (mk_drm_connector [] (mk_drm_display_info 0 0 0))
             (fun _ => true) 0 [] in
  let s1 := snd (rpi_touchscreen_get_modes s) in
  let s2 := snd (rpi_touchscreen_get_modes s1) in
  Z.of_nat (List.length rpi_touchscreen_modes) <= INT_MAX /\
  (forall j, mode_alloc_ok s j = true) /\
  map type (probed_modes (connector s2)) = [72; 72] /\
  exists added,
    probed_modes (connector s1) = probed_modes (connector s) ++ added /\
    probed_modes (connector s2) = probed_modes (connector s) ++ added ++ added /\
    List.length added = List.length rpi_touchscreen_modes /\
    fst (rpi_touchscreen_get_modes_over rpi_touchscreen_modes s) =
      Z.of_nat (List.length rpi_touchscreen_modes) /\
    fst (rpi_touchscreen_get_modes_over rpi_touchscreen_modes s1) =
      Z.of_nat (List.length rpi_touchscreen_modes).
Proof.
  cbv zeta.
  assert (Hlen : Z.of_nat 1 <= INT_MAX) by (vm_compute; discriminate).
  split; [exact Hlen |]. split; [intros j; reflexivity |].
  split; [reflexivity |].
  exact (get_modes_twice_adds_twice rpi_touchscreen_modes
    (mk_drm_state (mk_drm_connector [] (mk_drm_display_info 0 0 0))
       (fun _ => true) 0 [])
    Hlen (fun j => eq_refl)).
Defined.

(** ** Probe and remove *)

(** The probe by cases, once the allocation has succeeded. *)
Lemma probe_eq (env : probe_env) (s : probe_state) :
  kzalloc_ok env = true ->
  let p := bridge_lookup env in
  let seen := events s ++ node_puts_owed env in
  let bound tail :=
    mk_probe_state (Some (set_bridge_i2c p zeroed_panel))
      (mk_mipi_dsi_device
         (Z.lor MIPI_DSI_MODE_VIDEO MIPI_DSI_MODE_VIDEO_SYNC_PULSE)
         MIPI_DSI_FMT_RGB888 1)
      (seen ++ tail) in
  rpi_touchscreen_dsi_probe env s =
  if is_null p then (- EPROBE_DEFER, bound [])
  else if drm_panel_add env <? 0 then (drm_panel_add env, bound [Put_device p])
  else (mipi_dsi_attach env, bound [Drm_panel_added]).
Proof.
  intros Hmem. cbv zeta. unfold_probe. unfold bridge_lookup, node_puts_owed.
  rewrite Hmem. cbn [negb].
  destruct (of_parse_phandle env "raspberrypi,touchscreen-bridge") as [node |].
  - destruct (of_find_i2c_device_by_node env node) as [c |];
      cbn [is_null set_bridge_i2c bridge_i2c drvdata dsi events];
      rewrite ?app_nil_r; [| reflexivity].
    destruct (drm_panel_add env <? 0); reflexivity.
  - cbn [is_null set_bridge_i2c bridge_i2c drvdata dsi events].
    rewrite !app_nil_r.
    destruct (drm_panel_add env <? 0); reflexivity.
Qed.

Lemma probe_events (env : probe_env) (s : probe_state) :
  exists tail,
    events (snd (rpi_touchscreen_dsi_probe env s)) =
      events s ++ node_puts_owed env ++ tail /\
    filter is_of_node_put tail = [].
Proof.
  destruct (kzalloc_ok env) eqn:Hmem.
  - rewrite probe_eq by exact Hmem. cbv zeta.
    destruct (is_null (bridge_lookup env));
      [| destruct (drm_panel_add env <? 0)];
      cbn [snd events]; rewrite <- app_assoc; eexists; split;
      reflexivity.
  - rewrite probe_without_memory by exact Hmem. cbn [snd].
    unfold node_puts_owed. rewrite Hmem. exists []. cbn.
    rewrite app_nil_r. auto.
Qed.

(** X15: the probe balances the node reference it takes.  Whatever the
    outcome, the [of_node_put] calls it makes are exactly one for the node
    the bridge property refers to when it got to look one up, and none
    when the allocation failed first or the property is missing. *)
Theorem probe_puts_bridge_node_once (env : probe_env) (s : probe_state) :
  exists added,
    events (snd (rpi_touchscreen_dsi_probe env s)) = events s ++ added /\
    filter is_of_node_put added = node_puts_owed env.
Proof.
  destruct (probe_events env s) as (tail & Hev & Htail).
  exists (node_puts_owed env ++ tail). split; [exact Hev |].
  rewrite filter_app, Htail, app_nil_r.
  unfold node_puts_owed. destruct (kzalloc_ok env); [| reflexivity].
  destruct (of_parse_phandle env "raspberrypi,touchscreen-bridge");
    reflexivity.
Qed.

(** X16: when the panel cannot be registered ([drm_panel_add] negative)
    the probe returns that error, hands the bridge pointer to
    [put_device] as its last act and leaves no panel registered.  The
    pointer is whatever the lookup gave that is not null, an error pointer
    included. *)
Theorem probe_puts_bridge_when_panel_add_fails
    (env : probe_env) (s : probe_state) :
  kzalloc_ok env = true ->
  is_null (bridge_lookup env) = false ->
  drm_panel_add env < 0 ->
  fst (rpi_touchscreen_dsi_probe env s) = drm_panel_add env /\
  events (snd (rpi_touchscreen_dsi_probe env s)) =
    events s ++ node_puts_owed env ++ [Put_device (bridge_lookup env)].
Proof.
  intros Hmem Hnn Hadd. rewrite probe_eq by exact Hmem. cbv zeta.
  rewrite Hnn. destruct (Z.ltb_spec (drm_panel_add env) 0); [| lia].
  cbn [fst snd events]. rewrite <- app_assoc. auto.
Qed.

Lemma probe_puts_bridge_when_panel_add_fails_witness :
  let env := mk_probe_env true (fun _ => Some 7%nat) (fun _ => Some 3%nat)
               (- ENOMEM) 0 in
  kzalloc_ok env = true /\
  is_null (bridge_lookup env) = false /\
  drm_panel_add env < 0 /\
  fst (rpi_touchscreen_dsi_probe env unbound) = drm_panel_add env /\
  events (snd (rpi_touchscreen_dsi_probe env unbound)) =
    events unbound ++ node_puts_owed env ++ [Put_device (bridge_lookup env)].
Proof.
  cbv zeta. split; [reflexivity |]. split; [reflexivity |].
  split; [reflexivity |].
  apply (probe_puts_bridge_when_panel_add_fails
    (mk_probe_env true (fun _ => Some 7%nat) (fun _ => Some 3%nat)
       (- ENOMEM) 0) unbound); reflexivity.
Defined.

(** X17: a failing [mipi_dsi_attach] is not undone.  The probe returns
    the attach error, but the panel it registered just before stays
    registered and the bridge pointer is not handed to [put_device]; the
    driver data keeps pointing at the panel with that bridge. *)
Theorem probe_attach_failure_is_not_rolled_back
    (env : probe_env) (s : probe_state) :
  kzalloc_ok env = true ->
  is_null (bridge_lookup env) = false ->
  0 <= drm_panel_add env ->
  mipi_dsi_attach env < 0 ->
  fst (rpi_touchscreen_dsi_probe env s) = mipi_dsi_attach env /\
  events (snd (rpi_touchscreen_dsi_probe env s)) =
    events s ++ node_puts_owed env ++ [Drm_panel_added] /\
  option_map bridge_i2c (drvdata (snd (rpi_touchscreen_dsi_probe env s))) =
    Some (bridge_lookup env).
Proof.
  intros Hmem Hnn Hadd Hattach. rewrite probe_eq by exact Hmem. cbv zeta.
  rewrite Hnn. destruct (Z.ltb_spec (drm_panel_add env) 0); [lia |].
  cbn [fst snd events drvdata option_map set_bridge_i2c bridge_i2c].
  rewrite <- app_assoc. auto.
Qed.

Lemma probe_attach_failure_is_not_rolled_back_witness :
  let env := mk_probe_env true (fun _ => Some 7%nat) (fun _ => Some 3%nat)
               0 (- ENODEV) in
  kzalloc_ok env = true /\
  is_null (bridge_lookup env) = false /\
  0 <= drm_panel_add env /\
  mipi_dsi_attach env < 0 /\
  fst (rpi_touchscreen_dsi_probe env unbound) = - ENODEV /\
  events (snd (rpi_touchscreen_dsi_probe env unbound)) =
    [Of_node_put 7%nat; Drm_panel_added].
Proof.
  cbv zeta. split; [reflexivity |]. split; [reflexivity |].
  split; [discriminate |]. split; [reflexivity |].
  pose proof (probe_attach_failure_is_not_rolled_back
    (mk_probe_env true (fun _ => Some 7%nat) (fun _ => Some 3%nat)
       0 (- ENODEV)) unbound eq_refl eq_refl) as H.
  destruct H as (Hr & He & _); [discriminate | reflexivity |].
  split; [exact Hr | exact He].
Defined.

(** X18: the probe returns 0 only after a full bind: the allocation
    succeeded, the lookup gave a pointer that is not null, the panel was
    registered and the DSI attach returned 0.  The lookup need not have
    found a client for that. *)
Theorem probe_success_means_bound (env : probe_env) (s : probe_state) :
  fst (rpi_touchscreen_dsi_probe env s) = 0 ->
  kzalloc_ok env = true /\
  is_null (bridge_lookup env) = false /\
  0 <= drm_panel_add env /\
  mipi_dsi_attach env = 0 /\
  events (snd (rpi_touchscreen_dsi_probe env s)) =
    events s ++ node_puts_owed env ++ [Drm_panel_added] /\
  drvdata (snd (rpi_touchscreen_dsi_probe env s)) =
    Some (set_bridge_i2c (bridge_lookup env) zeroed_panel).
Proof.
  destruct (kzalloc_ok env) eqn:Hmem.
  - rewrite probe_eq by exact Hmem. cbv zeta.
    destruct (is_null (bridge_lookup env)); [cbn; discriminate |].
    destruct (Z.ltb_spec (drm_panel_add env) 0); cbn [fst snd events drvdata].
    + intros H0. lia.
    + intros H0. rewrite <- app_assoc. repeat split; assumption.
  - rewrite probe_without_memory by exact Hmem. cbn. discriminate.
Qed.

Lemma probe_success_means_bound_witness :
  let env := mk_probe_env true (fun _ => Some 7%nat) (fun _ => Some 3%nat)
               0 0 in
  fst (rpi_touchscreen_dsi_probe env unbound) = 0 /\
  drvdata (snd (rpi_touchscreen_dsi_probe env unbound)) =
    Some (set_bridge_i2c (I2C_CLIENT 3) zeroed_panel).
Proof.
  cbv zeta. split; [reflexivity |].
  apply (probe_success_means_bound
    (mk_probe_env true (fun _ => Some 7%nat) (fun _ => Some 3%nat) 0 0)
    unbound).
  reflexivity.
Defined.

(** X19: a probe deferred because the bridge client was not registered
    leaves nothing that stands in the way of the retry: probing again on
    the state the deferred attempt left, once the client is there and the
    registration and attach succeed, returns 0 with that client as the
    bridge, and each attempt has put its node reference. *)
Theorem deferred_probe_then_retry_binds
    (env1 env2 : probe_env) (s : probe_state) (client : nat) :
  kzalloc_ok env1 = true ->
  bridge_lookup env1 = I2C_NULL ->
  kzalloc_ok env2 = true ->
  bridge_lookup env2 = I2C_CLIENT client ->
  0 <= drm_panel_add env2 ->
  mipi_dsi_attach env2 = 0 ->
  let s1 := snd (rpi_touchscreen_dsi_probe env1 s) in
  let s2 := snd (rpi_touchscreen_dsi_probe env2 s1) in
  fst (rpi_touchscreen_dsi_probe env1 s) = - EPROBE_DEFER /\
  option_map bridge_i2c (drvdata s1) = Some I2C_NULL /\
  fst (rpi_touchscreen_dsi_probe env2 s1) = 0 /\
  drvdata s2 = Some (set_bridge_i2c (I2C_CLIENT client) zeroed_panel) /\
  events s2 =
    events s ++ node_puts_owed env1 ++ node_puts_owed env2 ++ [Drm_panel_added].
Proof.
  intros Hm1 Hl1 Hm2 Hl2 Hadd Hattach. cbv zeta.
  rewrite (probe_eq env1 s) by exact Hm1. cbv zeta. rewrite Hl1.
  cbn [is_null fst snd drvdata option_map set_bridge_i2c bridge_i2c].
  rewrite probe_eq by exact Hm2. cbv zeta. rewrite Hl2, Hattach.
  destruct (Z.ltb_spec (drm_panel_add env2) 0); [lia |].
  cbn [is_null fst snd drvdata events].
  rewrite app_nil_r, <- !app_assoc. repeat split.
Qed.

Lemma deferred_probe_then_retry_binds_witness :
  let env1 := mk_probe_env true (fun _ => Some 7%nat) (fun _ => None) 0 0 in
  let env2 := mk_probe_env true (fun _ => Some 7%nat) (fun _ => Some 3%nat)
                0 0 in
  kzalloc_ok env1 = true /\
  bridge_lookup env1 = I2C_NULL /\
  bridge_lookup env2 = I2C_CLIENT 3 /\
  fst (rpi_touchscreen_dsi_probe env1 unbound) = - EPROBE_DEFER /\
  fst (rpi_touchscreen_dsi_probe env2
         (snd (rpi_touchscreen_dsi_probe env1 unbound))) = 0.
Proof.
  cbv zeta. split; [reflexivity |]. split; [reflexivity |].
  split; [reflexivity |].
  pose proof (deferred_probe_then_retry_binds
    (mk_probe_env true (fun _ => Some 7%nat) (fun _ => None) 0 0)
    (mk_probe_env true (fun _ => Some 7%nat) (fun _ => Some 3%nat) 0 0)
    unbound 3 eq_refl eq_refl eq_refl eq_refl) as H.
  destruct H as (H1 & _ & H2 & _); [discriminate | reflexivity |].
  split; [exact H1 | exact H2].
Defined.

(** X20: the panel a probe leaves as driver data starts out unprepared,
    disabled and without a backlight (the registration of one is compiled
    out).  So no sequence of lifecycle calls on it ever asks for a
    backlight refresh, and a sequence that keeps the callers' order keeps
    [enabled] implying [prepared] after every call. *)
Theorem lifecycle_of_probed_panel
    (env : probe_env) (s : probe_state) (ts : rpi_touchscreen)
    (ops : list lifecycle_op) (log : list string)
    (reqs : list backlight_device) :
  kzalloc_ok env = true ->
  drvdata (snd (rpi_touchscreen_dsi_probe env s)) = Some ts ->
  let k := mk_kernel ts log reqs in
  (prepared ts = false /\ enabled ts = false /\ backlight ts = None) /\
  bl_requests (run ops k) = reqs /\
  (calls_in_order ops k = true ->
   Forall (fun k' => enabled_implies_prepared (panel k') = true)
     (trace ops k)).
Proof.
  intros Hmem Hts. cbv zeta.
  assert (Hinit : ts = set_bridge_i2c (bridge_lookup env) zeroed_panel).
  { rewrite probe_eq in Hts by exact Hmem. cbv zeta in Hts.
    destruct (is_null (bridge_lookup env));
      [| destruct (drm_panel_add env <? 0)];
      cbn [snd drvdata] in Hts; congruence. }
  subst ts. split; [repeat split |]. split.
  - apply (run_without_backlight ops
             (mk_kernel (set_bridge_i2c (bridge_lookup env) zeroed_panel)
                log reqs)).
    reflexivity.
  - intros Hord. apply ordered_trace_keeps_invariant; [reflexivity | exact Hord].
Qed.

Lemma lifecycle_of_probed_panel_witness :
  let env := mk_probe_env true (fun _ => Some 7%nat) (fun _ => Some 3%nat)
               0 0 in
  let ts := set_bridge_i2c (I2C_CLIENT 3) zeroed_panel in
  let ops := [Prepare; Enable; Disable; Unprepare] in
  kzalloc_ok env = true /\
  drvdata (snd (rpi_touchscreen_dsi_probe env unbound)) = Some ts /\
  bl_requests (run ops (mk_kernel ts [] [])) = [].
Proof.
  cbv zeta. split; [reflexivity |]. split; [reflexivity |].
  apply (lifecycle_of_probed_panel
    (mk_probe_env true (fun _ => Some 7%nat) (fun _ => Some 3%nat) 0 0)
    unbound (set_bridge_i2c (I2C_CLIENT 3) zeroed_panel)
    [Prepare; Enable; Disable; Unprepare] [] []); reflexivity.
Defined.

Ltac unfold_remove :=
  unfold rpi_touchscreen_dsi_remove, log_teardown, on_device, emit, bind, ret,
    get, modify.

(** The remove callback by cases on what the detach returns. *)
Lemma remove_eq (env : remove_env) (s : bound_state) :
  rpi_touchscreen_dsi_remove env s =
  if mipi_dsi_detach env <? 0 then
    (Returned (mipi_dsi_detach env),
     mk_bound_state (device s)
       (teardown s ++ [Dev_err (failed_to_detach (mipi_dsi_detach env))]))
  else
    match drvdata (device s) with
    | None => (Null_dereference, s)
    | Some ts =>
        (Returned 0,
         mk_bound_state
           (mk_probe_state (drvdata (device s)) (dsi (device s))
              (events (device s) ++ [Put_device (bridge_i2c ts)]))
           (teardown s ++ [Drm_panel_detach; Drm_panel_remove]))
    end.
Proof.
  unfold_remove. destruct (mipi_dsi_detach env <? 0); [reflexivity |].
  destruct (drvdata (device s)) as [ts |] eqn:Hts; [| reflexivity].
  cbn [device teardown drvdata dsi events]. rewrite <- app_assoc, Hts.
  reflexivity.
Qed.

(** X21: when [mipi_dsi_detach] fails the remove callback gives up at
    once: it returns the detach error, logs it, and neither detaches nor
    removes the panel nor puts the bridge reference; the device is as it
    was. *)
Theorem remove_gives_up_when_detach_fails (env : remove_env) (s : bound_state) :
  mipi_dsi_detach env < 0 ->
  let s' := snd (rpi_touchscreen_dsi_remove env s) in
  fst (rpi_touchscreen_dsi_remove env s) = Returned (mipi_dsi_detach env) /\
  device s' = device s /\
  teardown s' =
    teardown s ++ [Dev_err (failed_to_detach (mipi_dsi_detach env))].
Proof.
  intros Hfail. cbv zeta. rewrite remove_eq.
  destruct (Z.ltb_spec (mipi_dsi_detach env) 0); [| lia].
  repeat split.
Qed.

Lemma remove_gives_up_when_detach_fails_witness :
  let env := mk_remove_env (- ENODEV) in
  let s := mk_bound_state
             (mk_probe_state (Some (set_bridge_i2c (I2C_CLIENT 3) zeroed_panel))
                (mk_mipi_dsi_device 5 0 1) [])
             [] in
  mipi_dsi_detach env < 0 /\
  fst (rpi_touchscreen_dsi_remove env s) = Returned (- ENODEV) /\
  device (snd (rpi_touchscreen_dsi_remove env s)) = device s.
Proof.
  cbv zeta. split; [reflexivity |].
  pose proof (remove_gives_up_when_detach_fails
    (mk_remove_env (- ENODEV))
    (mk_bound_state
       (mk_probe_state (Some (set_bridge_i2c (I2C_CLIENT 3) zeroed_panel))
          (mk_mipi_dsi_device 5 0 1) [])
       []) eq_refl) as H.
  cbv zeta in H. destruct H as (Hr & Hd & _). split; [exact Hr | exact Hd].
Defined.

(** X22: bind and unbind balance.  After a probe that returned 0 with a
    client as bridge, a remove whose detach succeeds returns 0, detaches
    and removes the panel in that order, and hands to [put_device] exactly
    once the client the probe had looked up; over both callbacks the
    device saw the node put, the panel added and the client put, and
    nothing else. *)
Theorem probe_then_remove_balances
    (penv : probe_env) (renv : remove_env) (s : probe_state) (client : nat) :
  fst (rpi_touchscreen_dsi_probe penv s) = 0 ->
  bridge_lookup penv = I2C_CLIENT client ->
  0 <= mipi_dsi_detach renv ->
  let bound := mk_bound_state (snd (rpi_touchscreen_dsi_probe penv s)) [] in
  let s' := snd (rpi_touchscreen_dsi_remove renv bound) in
  fst (rpi_touchscreen_dsi_remove renv bound) = Returned 0 /\
  teardown s' = [Drm_panel_detach; Drm_panel_remove] /\
  events (device s') =
    events s ++ node_puts_owed penv
      ++ [Drm_panel_added; Put_device (I2C_CLIENT client)] /\
  filter is_put_device (events (device s')) =
    filter is_put_device (events s) ++ [Put_device (I2C_CLIENT client)].
Proof.
  intros Hok Hlook Hdetach. cbv zeta.
  assert (Hmem : kzalloc_ok penv = true).
  { destruct (kzalloc_ok penv) eqn:E; [reflexivity |].
    rewrite probe_without_memory in Hok by exact E. discriminate Hok. }
  rewrite probe_eq in Hok |- * by exact Hmem. cbv zeta in Hok |- *.
  rewrite Hlook in Hok |- *. cbn [is_null] in Hok |- *.
  destruct (drm_panel_add penv <? 0) eqn:Hadd.
  - cbn [fst] in Hok. apply Z.ltb_lt in Hadd. lia.
  - cbn [snd]. rewrite remove_eq.
    destruct (Z.ltb_spec (mipi_dsi_detach renv) 0); [lia |].
    cbn [device drvdata teardown events dsi fst snd set_bridge_i2c bridge_i2c
           app].
    rewrite <- !app_assoc. cbn [app]. repeat split.
    rewrite !filter_app. cbn [filter is_put_device].
    assert (Hnone : filter is_put_device (node_puts_owed penv) = []).
    { unfold node_puts_owed. destruct (kzalloc_ok penv); [| reflexivity].
      destruct (of_parse_phandle penv "raspberrypi,touchscreen-bridge");
        reflexivity. }
    rewrite Hnone. reflexivity.
Qed.

Lemma probe_then_remove_balances_witness :
  let penv := mk_probe_env true (fun _ => Some 7%nat) (fun _ => Some 3%nat)
                0 0 in
  let renv := mk_remove_env 0 in
  let bound :=
    mk_bound_state (snd (rpi_touchscreen_dsi_probe penv unbound)) [] in
  fst (rpi_touchscreen_dsi_probe penv unbound) = 0 /\
  bridge_lookup penv = I2C_CLIENT 3 /\
  0 <= mipi_dsi_detach renv /\
  fst (rpi_touchscreen_dsi_remove renv bound) = Returned 0 /\
  events (device (snd (rpi_touchscreen_dsi_remove renv bound))) =
    [Of_node_put 7%nat; Drm_panel_added; Put_device (I2C_CLIENT 3)].
Proof.
  cbv zeta. split; [reflexivity |]. split; [reflexivity |].
  split; [discriminate |].
  pose proof (probe_then_remove_balances
    (mk_probe_env true (fun _ => Some 7%nat) (fun _ => Some 3%nat) 0 0)
    (mk_remove_env 0) unbound 3 eq_refl eq_refl) as H.
  destruct H as (Hr & _ & He & _); [discriminate |].
  split; [exact Hr | exact He].
Defined.

(** X23: the error pointer of a missing bridge property travels on.  When
    the property is not in the device tree the probe keeps
    ERR_PTR(-ENODEV) as its bridge, and whichever of the probe's error
    path (panel registration failing) or the remove callback (detach
    succeeding) comes to release the bridge hands that error pointer to
    [put_device]. *)
Theorem missing_property_puts_error_pointer
    (penv : probe_env) (renv : remove_env) (s : probe_state) :
  kzalloc_ok penv = true ->
  of_parse_phandle penv "raspberrypi,touchscreen-bridge" = None ->
  0 <= mipi_dsi_detach renv ->
  let s1 := snd (rpi_touchscreen_dsi_probe penv s) in
  let s2 := snd (rpi_touchscreen_dsi_remove renv (mk_bound_state s1 [])) in
  option_map bridge_i2c (drvdata s1) = Some (I2C_ERR_PTR (- ENODEV)) /\
  (drm_panel_add penv < 0 ->
   events s1 = events s ++ [Put_device (I2C_ERR_PTR (- ENODEV))]) /\
  (0 <= drm_panel_add penv ->
   fst (rpi_touchscreen_dsi_probe penv s) = mipi_dsi_attach penv /\
   events (device s2) =
     events s ++ [Drm_panel_added; Put_device (I2C_ERR_PTR (- ENODEV))]).
Proof.
  intros Hmem Hprop Hdetach. cbv zeta.
  rewrite probe_eq by exact Hmem. cbv zeta.
  unfold bridge_lookup, node_puts_owed. rewrite Hmem, Hprop.
  cbn [is_null]. rewrite app_nil_r.
  destruct (Z.ltb_spec (drm_panel_add penv) 0) as [Hadd | Hadd];
    cbn [fst snd drvdata events option_map set_bridge_i2c bridge_i2c].
  - split; [reflexivity |]. split; [reflexivity | lia].
  - split; [reflexivity |]. split; [lia |]. intros _.
    split; [reflexivity |]. rewrite remove_eq.
    destruct (Z.ltb_spec (mipi_dsi_detach renv) 0); [lia |].
    cbn [device drvdata events dsi snd set_bridge_i2c bridge_i2c].
    rewrite <- app_assoc. reflexivity.
Qed.

Lemma missing_property_puts_error_pointer_witness :
  let penv := mk_probe_env true (fun _ => None) (fun _ => None) 0 0 in
  let renv := mk_remove_env 0 in
  let s1 := snd (rpi_touchscreen_dsi_probe penv unbound) in
  kzalloc_ok penv = true /\
  of_parse_phandle penv "raspberrypi,touchscreen-bridge" = None /\
  0 <= mipi_dsi_detach renv /\
  option_map bridge_i2c (drvdata s1) = Some (I2C_ERR_PTR (- ENODEV)).
Proof.
  cbv zeta. split; [reflexivity |]. split; [reflexivity |].
  split; [discriminate |].
  pose proof (missing_property_puts_error_pointer
    (mk_probe_env true (fun _ => None) (fun _ => None) 0 0)
    (mk_remove_env 0) unbound eq_refl eq_refl) as H.
  destruct H as (Hb & _); [discriminate |]. exact Hb.
Defined.
